(** * qlib.backtest.high_performance_ds: quotes, single metrics and order
    indicators

    A shallow embedding of [qlib/backtest/high_performance_ds.py].  Python
    exceptions are values of an error monad, [None] is [option]'s [None],
    float64 cells are the kernel's binary64 floats (so that a NaN really is a
    NaN: it compares different from everything, itself included), a [dict]
    keyed by strings is a [gmap string _], and the mutation of an indicator is
    explicit state passing. *)

From Stdlib Require Import Floats ZArith Uint63.
From stdpp Require Import gmap strings list fin_maps.

Local Open Scope string_scope.

(** ** Python: exceptions, [None], [dict] subscription *)

Inductive exn : Type :=
| ValueError (msg : string)
| KeyError (key : string)
| IndexError.

Inductive result (A : Type) : Type :=
| Ok (a : A)
| Raise (e : exn).
Arguments Ok {A} a.
Arguments Raise {A} e.

(** Sequencing: an exception raised by the first statement propagates. *)
#[global] Instance result_bind : MBind result :=
  λ A B k c, match c with
             | Ok a => k a
             | Raise e => Raise e
             end.
#[global] Instance result_ret : MRet result := λ A a, Ok a.

(** [d[key]] on a [dict] with string keys: [KeyError(key)] when absent. *)
Definition getitem {V : Type} (d : gmap string V) (key : string) : result V :=
  match d !! key with
  | Some v => Ok v
  | None => Raise (KeyError key)
  end.

(** [a[i]] on a sequence, [i >= 0]: [IndexError] out of range. *)
Definition seq_getitem {A : Type} (a : list A) (i : nat) : result A :=
  match a !! i with
  | Some x => Ok x
  | None => Raise IndexError
  end.

(** [pd.Timestamp] and [np.timedelta64], both counted in nanoseconds. *)
Abbreviation Timestamp := Z (only parsing).
Abbreviation Timedelta := Z (only parsing).

(** The [method] argument of [get_data]: [Union[str, Callable, None]].  A
    callable is either [qlib.utils.resam.ts_data_last] or some other function
    object; [==] on functions is identity. *)
Inductive method_t : Type :=
| MStr (name : string)
| MTsDataLast
| MCallable (id : nat).

(** ** numpy: the reductions [_agg_data] calls *)

Module np.

Definition isnan (x : float) : bool := PrimFloat.is_nan x.

(** [x != np.NaN], element by element: IEEE inequality. *)
Definition ne (x y : float) : bool := negb (PrimFloat.eqb x y).

(** [data[mask]]: the cells whose mask is true, in order. *)
Definition mask_select (p : float → bool) (data : list float) : list float :=
  List.filter p data.

Definition of_nat (n : nat) : float :=
  PrimFloat.of_uint63 (Uint63.of_Z (Z.of_nat n)).

(** [np.nansum]: NaN counts as zero.  The cells are added front to back.
    numpy adds an array of eight cells or more in blocks, so there its result
    may differ from this one in the rounding; no statement below rests on the
    value of such a sum. *)
Definition nansum (data : list float) : float :=
  fold_left (λ acc x, if isnan x then acc else PrimFloat.add acc x)
            data PrimFloat.zero.

(** [np.nanmean]: the NaN-skipping sum over the number of non-NaN cells
    (NaN when there is none: [0/0]). *)
Definition nanmean (data : list float) : float :=
  PrimFloat.div (nansum data)
                (of_nat (length (List.filter (λ x, negb (isnan x)) data))).

(** Truth value of a cell: everything but zero, NaN included. *)
Definition truthy (x : float) : bool := negb (PrimFloat.eqb x PrimFloat.zero).

Definition all (data : list float) : bool := forallb truthy data.
Definition any (data : list float) : bool := existsb truthy data.

End np.

(** ** pandas: a [pd.Series] of float64 over string labels

    A series over unique labels is its label-to-value mapping; the display
    order of the labels is not modelled.  The operations are pandas' documented
    ones: the binary operators align both operands on the union of their
    labels, a label missing from one side reading as NaN there. *)

Module pd.

Abbreviation Series := (gmap string float) (only parsing).

(** [pd.Series()] and [pd.Series({})]. *)
Definition Series_empty : Series := ∅.

Definition isna (x : float) : bool := PrimFloat.is_nan x.

(** The cell of one side after alignment on the union of the labels. *)
Definition aligned (o : option float) : float := default PrimFloat.nan o.

(** Alignment of [s] and [t], then [op] cell by cell. *)
Definition align_with (op : float → float → float) (s t : Series) : Series :=
  merge (λ oa ob,
           match oa, ob with
           | None, None => None
           | _, _ => Some (op (aligned oa) (aligned ob))
           end) s t.

(** [s + t], [s - t] between two series. *)
Definition add_series : Series → Series → Series := align_with PrimFloat.add.
Definition sub_series : Series → Series → Series := align_with PrimFloat.sub.

(** [s + c], [s - c] and [c - s] with a number [c]: broadcast. *)
Definition add_scalar (s : Series) (c : float) : Series :=
  (λ a, PrimFloat.add a c) <$> s.
Definition sub_scalar (s : Series) (c : float) : Series :=
  (λ a, PrimFloat.sub a c) <$> s.
Definition rsub_scalar (c : float) (s : Series) : Series :=
  (λ a, PrimFloat.sub c a) <$> s.

(** The filling step of [Series.add(other, fill_value)], on one aligned pair
    of cells: a cell that is missing on exactly one side takes [fill_value];
    where both sides are missing nothing is filled ("If data in both
    corresponding Series locations is missing the result of filling (at this
    location) will be missing"). *)
Definition fill_binop (fill_value : option float) (a b : float) : float * float :=
  match fill_value with
  | None => (a, b)
  | Some f =>
      let mask := xorb (isna a) (isna b) in
      (if isna a && mask then f else a, if isna b && mask then f else b)
  end.

(** [s.add(t, fill_value=fill_value)]. *)
Definition add (s t : Series) (fill_value : option float) : Series :=
  align_with (λ a b, let '(a', b') := fill_binop fill_value a b in
                     PrimFloat.add a' b') s t.

(** [len(s)] and [s.empty]. *)
Definition len (s : Series) : nat := size s.
Definition empty (s : Series) : bool := bool_decide (size s = 0).

(** A [pd.DataFrame] of one instrument: rows labelled by time, columns by
    field name. *)
Record DataFrame : Type := mkDataFrame {
  index : list Timestamp;
  columns : list string;
  values : list (list float)
}.

(** A [pd.Series] over time labels (one column of a [DataFrame]). *)
Abbreviation TimeSeries := (list (Timestamp * float)) (only parsing).

(** [df[field]]: the column, [KeyError(field)] when there is none.  (A frame
    is rectangular; a cell that a short row lacks reads as NaN.) *)
Definition column (df : DataFrame) (field : string) : result TimeSeries :=
  match list_find (λ c, c = field) (columns df) with
  | None => Raise (KeyError field)
  | Some (j, _) =>
      Ok (zip (index df) ((λ row, default PrimFloat.nan (row !! j)) <$> values df))
  end.

(** [s * t], [s / t] between two series, and with a number. *)
Definition mul_series : Series → Series → Series := align_with PrimFloat.mul.
Definition div_series : Series → Series → Series := align_with PrimFloat.div.
Definition mul_scalar (s : Series) (c : float) : Series :=
  (λ a, PrimFloat.mul a c) <$> s.
Definition div_scalar (s : Series) (c : float) : Series :=
  (λ a, PrimFloat.div a c) <$> s.

(** [s.abs()], and [s.count()], the number of cells that are not NaN. *)
Definition abs (s : Series) : Series := PrimFloat.abs <$> s.
Definition count (s : Series) : nat :=
  size (filter (λ kv : string * float, isna kv.2 = false) s).

End pd.

(** ** IndexData: the label-indexed arrays of [qlib/utils/index_data.py]

    The module is imported by the file but is not part of the sources at hand;
    what the code uses of it is modelled from the specification's description
    of the indexed array store. *)

Module IndexData.

(** Modelled from the spec: [IndexData.Series], missing from the sources, "a
    1-D numeric vector indexed by [...] label": the labels in order and the
    buffer of their values. *)
Record Series (L : Type) : Type := mkSeries {
  s_index : list L;
  s_values : list float
}.
Arguments mkSeries {L} s_index s_values.
Arguments s_index {L} s.
Arguments s_values {L} s.

(** Modelled from the spec: the missing constructor call [IndexData.Series()],
    the "empty Single Metric" that seeds an accumulator. *)
Definition Series_empty {L : Type} : Series L := mkSeries [] [].

(** Modelled from the spec: the missing constructor [IndexData.Series(metric)]
    on a plain mapping label -> value ("metric is built from [...] a plain
    mapping"). *)
Definition Series_of_dict (metric : gmap string float) : Series string :=
  mkSeries (map_to_list metric).*1 (map_to_list metric).*2.

(** Modelled from the spec: the missing constructor [IndexData.Series(s)] on
    a pandas series over time labels. *)
Definition Series_of_pd (s : pd.TimeSeries) : Series Timestamp :=
  mkSeries s.*1 s.*2.

(** Modelled from the spec: the missing [__len__] of a series, its number of
    entries. *)
Definition len {L : Type} (s : Series L) : nat := length (s_values s).

(** Modelled from the spec: the missing property [empty], "true iff the
    vector has zero entries". *)
Definition empty {L : Type} (s : Series L) : bool := bool_decide (len s = 0).

(** Modelled from the spec: the missing [to_pd_series], the metric "as a
    plain labeled series". *)
Definition to_pd_series (s : Series string) : pd.Series :=
  list_to_map (zip (s_index s) (s_values s)).

(** Modelled from the spec: [IndexData.DataFrame], missing from the sources,
    the quote table of one entity: "a 2-D numeric buffer indexed by time
    label on one axis and field name on the other". *)
Record DataFrame : Type := mkDataFrame {
  index : list Timestamp;
  columns : list string;
  values : list (list float)
}.

(** Modelled from the spec: the missing attribute [index_map], "a mapping
    from an ordered label [...] to a fixed integer position". *)
Definition index_map (df : DataFrame) : gmap Z nat :=
  list_to_map (zip (index df) (seq 0 (length (index df)))).

(** Modelled from the spec: the missing attribute [columns_map], the same
    mapping for the field names. *)
Definition columns_map (df : DataFrame) : gmap string nat :=
  list_to_map (zip (columns df) (seq 0 (length (columns df)))).

(** Modelled from the spec: the rows a label range selects, "slice rows in
    [start, end] inclusive by label range". *)
Definition rows_between (df : DataFrame) (start_time end_time : Timestamp)
  : list (Timestamp * list float) :=
  filter (λ r, start_time ≤ r.1 ≤ end_time)%Z (zip (index df) (values df)).

(** Modelled from the spec: the missing method [loc(start, end)] without a
    field, the 2-D slice. *)
Definition loc (df : DataFrame) (start_time end_time : Timestamp) : DataFrame :=
  let rows := rows_between df start_time end_time in
  mkDataFrame rows.*1 (columns df) rows.*2.

(** Modelled from the spec: the missing method [loc(start, end, fields)] with
    one field name, "the 1-D slice for that field"; an unknown field name is
    a [KeyError]. *)
Definition loc_field (df : DataFrame) (start_time end_time : Timestamp)
    (fields : string) : result (Series Timestamp) :=
  j ← getitem (columns_map df) fields;
  let rows := rows_between df start_time end_time in
  cells ← mapM (λ row : list float, seq_getitem row j) rows.*2;
  Ok (mkSeries rows.*1 cells).

(** Modelled from the spec: the missing property [empty] of a table: no
    row. *)
Definition frame_empty (df : DataFrame) : bool :=
  bool_decide (length (values df) = 0).

End IndexData.

(** ** The quote engines *)

(** What [get_data] returns besides [None]: a number or a truth value, the
    1-D array of one row, a 2-D array, or an [IndexData.Series] over time. *)
Inductive quote_data : Type :=
| Number (x : float)
| Truth (b : bool)
| Row (cells : list float)
| Array2D (rows : list (list float))
| SeriesOverTime (s : IndexData.Series Timestamp).

Module PandasQuote.

(** [self.data]: stock id -> the frame of that instrument. *)
Record t : Type := mk { data : gmap string pd.DataFrame }.

Definition get_all_stock (self : t) : gset string := dom (data self).

(** What is handed to [resam_ts_data], and what it may hand back. *)
Inductive ts_feature : Type :=
| Frame (df : pd.DataFrame)
| Column (s : pd.TimeSeries).

Inductive resampled : Type :=
| RNone
| RNumber (x : float)
| RTruth (b : bool)
| RSeries (s : pd.TimeSeries)
| RFrame (df : pd.DataFrame)
| ROther.

Section get_data.

(** [qlib.utils.resam.resam_ts_data] is imported from a module that is not
    among the sources: it is a parameter of the method. *)
Variable resam_ts_data :
  ts_feature → Timestamp → Timestamp → option method_t → result resampled.

(** [fields] is [Union[str, None]]; the branch for any other type of
    [fields] ([ValueError]) has no counterpart here. *)
Definition get_data (self : t) (stock_id : string)
    (start_time end_time : Timestamp)
    (fields : option string) (method : option method_t)
  : result (option quote_data) :=
  match fields, method with
  | None, Some _ => Raise (ValueError "method must be None when fields is None")
  | _, _ =>
      stock_data ←
        match fields with
        | None =>
            df ← getitem (data self) stock_id;
            resam_ts_data (Frame df) start_time end_time method
        | Some field =>
            df ← getitem (data self) stock_id;
            col ← pd.column df field;
            resam_ts_data (Column col) start_time end_time method
        end;
      match stock_data with
      | RNone => Ok None
      | RNumber x => Ok (Some (Number x))
      | RTruth b => Ok (Some (Truth b))
      | RSeries s => Ok (Some (SeriesOverTime (IndexData.Series_of_pd s)))
      | RFrame df => Ok (Some (Array2D (pd.values df)))
      | ROther =>
          Raise (ValueError
            "stock data from resam_ts_data must be a number, pd.Series or pd.DataFrame")
      end
  end.

End get_data.

End PandasQuote.

Module CN1min_NumpyQuote.

(** [self.data]: stock id -> [IndexData.DataFrame]. *)
Record t : Type := mk { data : gmap string IndexData.DataFrame }.

(** [self.freq = np.timedelta64(1, "m")]. *)
Definition freq : Timedelta := 60000000000%Z.

Definition get_all_stock (self : t) : gset string := dom (data self).

(** [_agg_data(data, method)] on the values of a column slice. *)
Definition _agg_data (data : list float) (method : method_t)
  : result (option quote_data) :=
  match method with
  | MStr name =>
      if bool_decide (name = "sum") then Ok (Some (Number (np.nansum data)))
      else if bool_decide (name = "mean") then Ok (Some (Number (np.nanmean data)))
      else if bool_decide (name = "last") then
        match last data with
        | Some x => Ok (Some (Number x))
        | None => Raise IndexError
        end
      else if bool_decide (name = "all") then Ok (Some (Truth (np.all data)))
      else if bool_decide (name = "any") then Ok (Some (Truth (np.any data)))
      else Raise (ValueError (name +:+ " is not supported"))
  | MTsDataLast =>
      let valid_data := np.mask_select (λ x, np.ne x PrimFloat.nan) data in
      if bool_decide (length valid_data = 0) then Ok None
      else x ← seq_getitem valid_data 0; Ok (Some (Number x))
  | MCallable _ => Raise (ValueError "<function> is not supported")
  end.

Section get_data.

(** [qlib.utils.time.if_single_data] is imported from a module that is not
    among the sources: it is a parameter of the method. *)
Variable if_single_data : Timestamp → Timestamp → Timedelta → bool.

Definition get_data (self : t) (stock_id : string)
    (start_time end_time : Timestamp)
    (fields : option string) (method : option method_t)
  : result (option quote_data) :=
  match fields, method with
  | None, Some _ => Raise (ValueError "method must be None when fields is None")
  | _, _ =>
      (* check stock id *)
      if bool_decide (stock_id ∉ get_all_stock self) then Ok None
      else
        df ← getitem (data self) stock_id;
        if if_single_data start_time end_time freq then
          (* single data *)
          let now_index_map := IndexData.index_map df in
          let now_columns_map := IndexData.columns_map df in
          match now_index_map !! start_time with
          | None => Ok None
          | Some i =>
              match fields with
              | None =>
                  row ← seq_getitem (IndexData.values df) i;
                  Ok (Some (Row row))
              | Some field =>
                  j ← getitem now_columns_map field;
                  row ← seq_getitem (IndexData.values df) i;
                  x ← seq_getitem row j;
                  Ok (Some (Number x))
              end
          end
        else
          (* multi data *)
          match fields, method with
          | None, None =>
              let stock_data := IndexData.loc df start_time end_time in
              if IndexData.frame_empty stock_data then Ok None
              else Ok (Some (Array2D (IndexData.values stock_data)))
          | Some field, None =>
              stock_data ← IndexData.loc_field df start_time end_time field;
              if IndexData.empty stock_data then Ok None
              else Ok (Some (SeriesOverTime stock_data))
          | Some field, Some m =>
              stock_data ← IndexData.loc_field df start_time end_time field;
              if IndexData.empty stock_data then Ok None
              else if bool_decide (IndexData.len stock_data = 1) then
                x ← seq_getitem (IndexData.s_values stock_data) 0;
                Ok (Some (Number x))
              else _agg_data (IndexData.s_values stock_data) m
          | None, Some _ => Ok None
          end
  end.

End get_data.

End CN1min_NumpyQuote.

(** The specification's words for the "last non-missing" aggregation: the
    first value that is not NaN, scanning from the front; [None] when every
    value is NaN. *)
Definition first_non_nan_spec (data : list float) : option float :=
  head (List.filter (λ x, negb (np.isnan x)) data).

(** ** Single metrics

    [SingleMetric] implements the operators once, for every subclass, through
    [self.__class__(...)]; [PandasSingleMetric], the only subclass in the file,
    keeps a [pd.Series] in [self.metric]. *)

Module PandasSingleMetric.

Record t : Type := mk { metric : pd.Series }.

(** The argument of the constructor: a [dict], a [pd.Series], or anything
    else. *)
Inductive init_arg : Type :=
| FromDict (d : gmap string float)
| FromSeries (s : pd.Series)
| FromOther.

Definition __init__ (metric : init_arg) : result t :=
  match metric with
  | FromDict d => Ok (mk d)
  | FromSeries s => Ok (mk s)
  | FromOther => Raise (ValueError "metric must be dict or pd.Series")
  end.

(** The right operand of an operator: an [int] or a [float] (a number, taken
    as the float64 it becomes in the arithmetic of a float64 series), a
    metric of the same class, or anything else. *)
Inductive operand : Type :=
| Scalar (c : float)
| Metric (m : t)
| Unsupported.

(** An operator returns a metric or the constant [NotImplemented]. *)
Inductive binop_result : Type :=
| Value (m : t)
| NotImplemented.

Definition __add__ (self : t) (other : operand) : result binop_result :=
  match other with
  | Scalar c => m ← __init__ (FromSeries (pd.add_scalar (metric self) c)); Ok (Value m)
  | Metric o =>
      m ← __init__ (FromSeries (pd.add_series (metric self) (metric o))); Ok (Value m)
  | Unsupported => Ok NotImplemented
  end.

Definition __sub__ (self : t) (other : operand) : result binop_result :=
  match other with
  | Scalar c => m ← __init__ (FromSeries (pd.sub_scalar (metric self) c)); Ok (Value m)
  | Metric o =>
      m ← __init__ (FromSeries (pd.sub_series (metric self) (metric o))); Ok (Value m)
  | Unsupported => Ok NotImplemented
  end.

Definition __rsub__ (self : t) (other : operand) : result binop_result :=
  match other with
  | Scalar c => m ← __init__ (FromSeries (pd.rsub_scalar c (metric self))); Ok (Value m)
  | Metric o =>
      m ← __init__ (FromSeries (pd.sub_series (metric o) (metric self))); Ok (Value m)
  | Unsupported => Ok NotImplemented
  end.

Definition __len__ (self : t) : nat := pd.len (metric self).

Definition empty (self : t) : bool := pd.empty (metric self).

Definition add (self other : t) (fill_value : option float) : result t :=
  __init__ (FromSeries (pd.add (metric self) (metric other) fill_value)).

Definition __mul__ (self : t) (other : operand) : result binop_result :=
  match other with
  | Scalar c => m ← __init__ (FromSeries (pd.mul_scalar (metric self) c)); Ok (Value m)
  | Metric o =>
      m ← __init__ (FromSeries (pd.mul_series (metric self) (metric o))); Ok (Value m)
  | Unsupported => Ok NotImplemented
  end.

Definition __truediv__ (self : t) (other : operand) : result binop_result :=
  match other with
  | Scalar c => m ← __init__ (FromSeries (pd.div_scalar (metric self) c)); Ok (Value m)
  | Metric o =>
      m ← __init__ (FromSeries (pd.div_series (metric self) (metric o))); Ok (Value m)
  | Unsupported => Ok NotImplemented
  end.

Definition count (self : t) : nat := pd.count (metric self).

Definition abs (self : t) : result t := __init__ (FromSeries (pd.abs (metric self))).

End PandasSingleMetric.

(** The four arithmetic operators of [SingleMetric], by name: the operation on
    cells and the method. *)
Inductive arith : Type := Add | Sub | Mul | Div.

Definition arith_op (o : arith) : float → float → float :=
  match o with
  | Add => PrimFloat.add
  | Sub => PrimFloat.sub
  | Mul => PrimFloat.mul
  | Div => PrimFloat.div
  end.

Definition arith_method (o : arith)
  : PandasSingleMetric.t → PandasSingleMetric.operand →
    result PandasSingleMetric.binop_result :=
  match o with
  | Add => PandasSingleMetric.__add__
  | Sub => PandasSingleMetric.__sub__
  | Mul => PandasSingleMetric.__mul__
  | Div => PandasSingleMetric.__truediv__
  end.

(** The specification's words for [add] with a fill value (and the docstring
    of [BaseSingleMetric.add], "Replace np.NaN with fill_value in two metrics
    and add them"): over the union of the labels, [a + b] where a side that is
    missing, for want of an entry or by a NaN entry, counts as the fill
    value. *)
Definition filled (fill_value : float) (o : option float) : float :=
  match o with
  | Some a => if pd.isna a then fill_value else a
  | None => fill_value
  end.

Definition add_filled_spec (s t : pd.Series) (fill_value : float) : pd.Series :=
  merge (λ oa ob,
           match oa, ob with
           | None, None => None
           | _, _ => Some (PrimFloat.add (filled fill_value oa) (filled fill_value ob))
           end) s t.

(** ** Order indicators *)

(** A keyword argument with a default: left out by the caller, or given. *)
Inductive kwarg (A : Type) : Type :=
| Omitted
| Given (a : A).
Arguments Omitted {A}.
Arguments Given {A} a.

Definition kwarg_value {A : Type} (default_value : A) (k : kwarg A) : A :=
  match k with
  | Omitted => default_value
  | Given a => a
  end.

(** [metrics: Union[str, List[str]]], and the list the loop runs over
    ([if isinstance(metrics, str): metrics = [metrics]]). *)
Inductive metrics_arg : Type :=
| OneMetric (name : string)
| ManyMetrics (names : list string).

Definition metric_names (metrics : metrics_arg) : list string :=
  match metrics with
  | OneMetric name => [name]
  | ManyMetrics names => names
  end.

(** A [for] loop that threads a state and stops at the first exception. *)
Fixpoint for_each {S A : Type} (body : S → A → result S) (s : S) (l : list A)
  : result S :=
  match l with
  | [] => Ok s
  | x :: l' => s' ← body s x; for_each body s' l'
  end.

(** The function handed to [transfer]: the names of its parameters, in the
    order [inspect.signature(func).parameters.keys()] lists them, and its
    body on the keyword arguments; the body yields a metric or raises. *)
Record metric_func (M : Type) : Type := mk_metric_func {
  parameters : list string;
  call : gmap string M → result M
}.
Arguments mk_metric_func {M} parameters call.
Arguments parameters {M} _.
Arguments call {M} _ _.

(** [{sig: self.data[sig] for sig in func_sig}]: the entries are looked up in
    the order of the names. *)
Definition func_kwargs_of {M : Type} (data : gmap string M) (func_sig : list string)
  : result (gmap string M) :=
  for_each (λ kwargs sig, v ← getitem data sig; Ok (<[sig := v]> kwargs)) ∅ func_sig.

Module PandasOrderIndicator.

(** [self.data]: metric name -> [PandasSingleMetric] (the insertion order of
    the [OrderedDict] is not modelled). *)
Record t : Type := mk { data : gmap string PandasSingleMetric.t }.

Definition __init__ : t := mk ∅.

Definition assign (self : t) (col : string) (metric : PandasSingleMetric.init_arg)
  : result t :=
  m ← PandasSingleMetric.__init__ metric;
  Ok (mk (<[col := m]> (data self))).

Definition get_metric_series (self : t) (metric : string) : result pd.Series :=
  if bool_decide (metric ∈ dom (data self)) then
    m ← getitem (data self) metric;
    Ok (PandasSingleMetric.metric m)
  else Ok pd.Series_empty.

Definition fill_value_default : option float := None.

(** The static method; the mutated [order_indicator] is returned. *)
Definition sum_all_indicators (order_indicator : t) (indicators : list t)
    (metrics : metrics_arg) (fill_value : kwarg (option float)) : result t :=
  let fill_value := kwarg_value fill_value_default fill_value in
  for_each
    (λ order_indicator metric,
       tmp_metric ← PandasSingleMetric.__init__ (PandasSingleMetric.FromDict ∅);
       tmp_metric ←
         for_each
           (λ tmp_metric indicator,
              other ← getitem (data indicator) metric;
              PandasSingleMetric.add tmp_metric other fill_value)
           tmp_metric indicators;
       assign order_indicator metric
         (PandasSingleMetric.FromSeries (PandasSingleMetric.metric tmp_metric)))
    order_indicator (metric_names metrics).

(** [transfer]: the indicator after the call, and what the call returns
    ([None] when the result is stored under [new_col]). *)
Definition transfer (self : t) (func : metric_func PandasSingleMetric.t)
    (new_col : option string) : result (t * option PandasSingleMetric.t) :=
  func_kwargs ← func_kwargs_of (data self) (parameters func);
  tmp_metric ← call func func_kwargs;
  match new_col with
  | Some col => Ok (mk (<[col := tmp_metric]> (data self)), None)
  | None => Ok (self, Some tmp_metric)
  end.

Definition get_index_data (self : t) (metric : string)
  : result (IndexData.Series string) :=
  if bool_decide (metric ∈ dom (data self)) then
    m ← getitem (data self) metric;
    Ok (IndexData.Series_of_dict (PandasSingleMetric.metric m))
  else Ok IndexData.Series_empty.

Definition to_series (self : t) : gmap string pd.Series :=
  PandasSingleMetric.metric <$> data self.

End PandasOrderIndicator.

Module NumpyOrderIndicator.

(** [self.data]: metric name -> [IndexData.Series]. *)
Record t : Type := mk { data : gmap string (IndexData.Series string) }.

Definition __init__ : t := mk ∅.

Definition assign (self : t) (col : string) (metric : gmap string float) : t :=
  mk (<[col := IndexData.Series_of_dict metric]> (data self)).

Definition get_metric_series (self : t) (metric : string) : result pd.Series :=
  s ← getitem (data self) metric;
  Ok (IndexData.to_pd_series s).

Definition fill_value_default : option float := Some PrimFloat.zero.

Section sum_all_indicators.

(** [IndexData.Series.add(other, fill_value)] belongs to the module that is
    not among the sources: it is a parameter of the method. *)
Variable Series_add :
  IndexData.Series string → IndexData.Series string → option float →
  result (IndexData.Series string).

Definition sum_all_indicators (order_indicator : t) (indicators : list t)
    (metrics : metrics_arg) (fill_value : kwarg (option float)) : result t :=
  let fill_value := kwarg_value fill_value_default fill_value in
  for_each
    (λ order_indicator metric,
       let tmp_metric := IndexData.Series_empty in
       tmp_metric ←
         for_each
           (λ tmp_metric indicator,
              other ← getitem (data indicator) metric;
              Series_add tmp_metric other fill_value)
           tmp_metric indicators;
       Ok (mk (<[metric := tmp_metric]> (data order_indicator))))
    order_indicator (metric_names metrics).

End sum_all_indicators.

Definition transfer (self : t) (func : metric_func (IndexData.Series string))
    (new_col : option string) : result (t * option (IndexData.Series string)) :=
  func_kwargs ← func_kwargs_of (data self) (parameters func);
  tmp_metric ← call func func_kwargs;
  match new_col with
  | Some col => Ok (mk (<[col := tmp_metric]> (data self)), None)
  | None => Ok (self, Some tmp_metric)
  end.

Definition get_index_data (self : t) (metric : string)
  : result (IndexData.Series string) :=
  if bool_decide (metric ∈ dom (data self)) then getitem (data self) metric
  else Ok IndexData.Series_empty.

(** [to_series]: one [get_metric_series] per name in [self.data]. *)
Definition to_series (self : t) : result (gmap string pd.Series) :=
  for_each
    (λ tmp_metric_dict metric,
       s ← get_metric_series self metric;
       Ok (<[metric := s]> tmp_metric_dict))
    ∅ (map_to_list (data self)).*1.

End NumpyOrderIndicator.

(** The accumulator of the inner loop of
    [PandasOrderIndicator.sum_all_indicators] for the metric name [name], once
    the indicators of the list have gone by: the metric of each indicator
    added in turn.  (An indicator without the metric adds nothing here; the
    loop itself raises at it.) *)
Definition pandas_accumulate (fill_value : option float) (name : string)
    (acc : pd.Series) (indicators : list PandasOrderIndicator.t) : pd.Series :=
  foldl (λ acc indicator,
           match PandasOrderIndicator.data indicator !! name with
           | Some other => pd.add acc (PandasSingleMetric.metric other) fill_value
           | None => acc
           end) acc indicators.

(** ** Sample data *)

(** Two metrics whose label sets overlap without being equal, each with a NaN
    entry at the shared label [s1]. *)
Definition metric_s1nan_s2 : PandasSingleMetric.t :=
  PandasSingleMetric.mk {[ "s1" := PrimFloat.nan; "s2" := PrimFloat.one ]}.
Definition metric_s1nan_s3 : PandasSingleMetric.t :=
  PandasSingleMetric.mk {[ "s1" := PrimFloat.nan; "s3" := PrimFloat.two ]}.

(** A metric with one entry, [s1 -> 1]. *)
Definition metric_s1 : PandasSingleMetric.t :=
  PandasSingleMetric.mk {[ "s1" := PrimFloat.one ]}.

(** The quote panel of the specification's scenario: entity [A] with field
    [$close] at 10, 11, 12 over three consecutive minutes. *)
Definition minute : Timedelta := 60000000000%Z.

Definition quote_A : IndexData.DataFrame :=
  IndexData.mkDataFrame [0; minute; 2 * minute]%Z ["$close"]
    [[10%float]; [11%float]; [12%float]].

Definition scenario_quote : CN1min_NumpyQuote.t :=
  CN1min_NumpyQuote.mk {[ "A" := quote_A ]}.

(** Modelled from the spec: [qlib.utils.time.if_single_data], missing from the
    sources; the fast path is taken "when start == end and both align to the
    table's native frequency". *)
Definition if_single_data_spec (start_time end_time : Timestamp) (freq : Timedelta)
  : bool :=
  bool_decide (start_time = end_time) && bool_decide (start_time `mod` freq = 0)%Z.

(** A function for [transfer] with the parameters [x] and [y]: their sum. *)
Definition func_x_plus_y : metric_func PandasSingleMetric.t :=
  mk_metric_func ["x"; "y"]
    (λ kwargs,
       x ← getitem kwargs "x";
       y ← getitem kwargs "y";
       PandasSingleMetric.add x y None).

(** An indicator with the one metric [x], and one with [x] and [y]. *)
Definition indicator_x : PandasOrderIndicator.t :=
  PandasOrderIndicator.mk {[ "x" := metric_s1 ]}.
Definition indicator_x_y : PandasOrderIndicator.t :=
  PandasOrderIndicator.mk {[ "x" := metric_s1; "y" := metric_s1nan_s2 ]}.

(** * Properties *)

(** ** Floats: NaN *)

(** Nothing equals NaN, NaN included: [x != np.NaN] holds of every cell. *)
Lemma ne_nan_always (x : float) : np.ne x PrimFloat.nan = true.
Proof.
  unfold np.ne. rewrite FloatAxioms.eqb_spec.
  change (Prim2SF PrimFloat.nan) with S754_nan.
  unfold SFeqb, SFcompare. by destruct (Prim2SF x).
Qed.

(** So the mask [data != np.NaN] selects the whole array. *)
Lemma mask_ne_nan_all (data : list float) :
  np.mask_select (λ x, np.ne x PrimFloat.nan) data = data.
Proof.
  unfold np.mask_select. induction data as [|x data IH]; [done|].
  simpl. rewrite ne_nan_always. by f_equal.
Qed.

(** NaN is none of the numbers. *)
Lemma nan_is_no_number (x : float) : PrimFloat.is_nan x = false → PrimFloat.nan ≠ x.
Proof. intros Hx Heq. rewrite <- Heq in Hx. discriminate Hx. Qed.

(** ** The quote engines *)

Section quote_engines.

Variable resam_ts_data :
  PandasQuote.ts_feature → Timestamp → Timestamp → option method_t →
  result PandasQuote.resampled.
Variable if_single_data : Timestamp → Timestamp → Timedelta → bool.

(** X2: the performance backend answers [None] for a stock it does not know,
    whatever the other (valid) arguments. *)
Lemma numpy_get_data_unknown_stock self stock_id start_time end_time fields method :
  CN1min_NumpyQuote.data self !! stock_id = None →
  (fields = None → method = None) →
  CN1min_NumpyQuote.get_data if_single_data self stock_id start_time end_time
    fields method = Ok None.
Proof.
  intros Hnone Hvalid. unfold CN1min_NumpyQuote.get_data.
  assert (Hdom : stock_id ∉ CN1min_NumpyQuote.get_all_stock self).
  { unfold CN1min_NumpyQuote.get_all_stock. by apply not_elem_of_dom. }
  destruct fields as [field|], method as [m|];
    try (by rewrite bool_decide_eq_true_2).
  by specialize (Hvalid eq_refl).
Qed.

End quote_engines.

(** C2 (as the code has it): the reference backend subscripts [self.data] with
    the stock id before anything else, so a stock that is not in the data
    raises [KeyError] for every valid combination of the other arguments; it
    never answers [None] there, while the performance backend does
    ([numpy_get_data_unknown_stock]). *)
Theorem pandas_get_data_unknown_stock_raises
    (resam_ts_data : PandasQuote.ts_feature → Timestamp → Timestamp →
                     option method_t → result PandasQuote.resampled)
    (self : PandasQuote.t) (stock_id : string) (start_time end_time : Timestamp)
    (fields : option string) (method : option method_t) :
  PandasQuote.data self !! stock_id = None →
  (fields = None → method = None) →
  PandasQuote.get_data resam_ts_data self stock_id start_time end_time fields method
  = Raise (KeyError stock_id).
Proof.
  intros Hnone Hvalid. unfold PandasQuote.get_data, getitem.
  destruct fields as [field|], method as [m|]; rewrite ?Hnone; try done.
  by specialize (Hvalid eq_refl).
Qed.

Lemma pandas_get_data_unknown_stock_raises_witness :
  PandasQuote.get_data (λ _ _ _ _, Ok PandasQuote.RNone) (PandasQuote.mk ∅)
    "B" 1%Z 1%Z None None
  = Raise (KeyError "B").
Proof.
  apply pandas_get_data_unknown_stock_raises; [reflexivity | intros _; reflexivity].
Defined.

(** C9: with [fields = None] and a method, [get_data] raises the
    [ValueError] "method must be None when fields is None" at once in both
    backends, whatever the stock and the time range (the specification calls
    this error a ConfigurationError). *)
Theorem get_data_method_without_fields
    (resam_ts_data : PandasQuote.ts_feature → Timestamp → Timestamp →
                     option method_t → result PandasQuote.resampled)
    (if_single_data : Timestamp → Timestamp → Timedelta → bool)
    (pandas_quote : PandasQuote.t) (numpy_quote : CN1min_NumpyQuote.t)
    (stock_id : string) (start_time end_time : Timestamp) (method : method_t) :
  PandasQuote.get_data resam_ts_data pandas_quote stock_id start_time end_time
    None (Some method)
  = Raise (ValueError "method must be None when fields is None")
  ∧ CN1min_NumpyQuote.get_data if_single_data numpy_quote stock_id start_time end_time
      None (Some method)
    = Raise (ValueError "method must be None when fields is None").
Proof. split; reflexivity. Qed.

(** ** [_agg_data] with [ts_data_last] *)

(** C5 (as the code has it): the mask [data != np.NaN] is true everywhere, so
    on a slice that is not empty [_agg_data] with [ts_data_last] answers its
    first cell, NaN or not; it neither skips a leading NaN nor answers [None]
    for a slice of NaNs. *)
Theorem agg_data_ts_data_last_first_cell (x : float) (data : list float) :
  CN1min_NumpyQuote._agg_data (x :: data) MTsDataLast = Ok (Some (Number x)).
Proof.
  unfold CN1min_NumpyQuote._agg_data. rewrite mask_ne_nan_all. reflexivity.
Qed.

(** The two inputs where this differs from the specification's words. *)
Lemma agg_data_ts_data_last_leading_nan :
  CN1min_NumpyQuote._agg_data [PrimFloat.nan; PrimFloat.one] MTsDataLast
  = Ok (Some (Number PrimFloat.nan))
  ∧ first_non_nan_spec [PrimFloat.nan; PrimFloat.one] = Some PrimFloat.one.
Proof. split; reflexivity. Qed.

Lemma agg_data_ts_data_last_all_nan :
  CN1min_NumpyQuote._agg_data [PrimFloat.nan; PrimFloat.nan] MTsDataLast
  = Ok (Some (Number PrimFloat.nan))
  ∧ first_non_nan_spec [PrimFloat.nan; PrimFloat.nan] = None.
Proof. split; reflexivity. Qed.

(** ** [get_metric_series] *)

(** The reference backend: the stored series when the name is there, an empty
    series when it is not; no exception either way. *)
Lemma pandas_get_metric_series (self : PandasOrderIndicator.t) (name : string) :
  PandasOrderIndicator.get_metric_series self name
  = Ok (match PandasOrderIndicator.data self !! name with
        | Some m => PandasSingleMetric.metric m
        | None => pd.Series_empty
        end).
Proof.
  unfold PandasOrderIndicator.get_metric_series, getitem.
  destruct (PandasOrderIndicator.data self !! name) as [m|] eqn:Hm.
  - rewrite bool_decide_eq_true_2; [done|]. apply elem_of_dom. eauto.
  - rewrite bool_decide_eq_false_2; [done|]. by apply not_elem_of_dom.
Qed.

(** The performance backend, name present: the stored series converted. *)
Lemma numpy_get_metric_series_present (self : NumpyOrderIndicator.t) name s :
  NumpyOrderIndicator.data self !! name = Some s →
  NumpyOrderIndicator.get_metric_series self name = Ok (IndexData.to_pd_series s).
Proof.
  intros Hs. unfold NumpyOrderIndicator.get_metric_series, getitem. by rewrite Hs.
Qed.

(** C1 (as the code has it): the performance backend subscripts [self.data]
    without a test, so a name that was never assigned raises [KeyError]; only
    the reference backend falls back to an empty series
    ([pandas_get_metric_series]). *)
Theorem numpy_get_metric_series_absent_raises
    (self : NumpyOrderIndicator.t) (name : string) :
  NumpyOrderIndicator.data self !! name = None →
  NumpyOrderIndicator.get_metric_series self name = Raise (KeyError name).
Proof.
  intros Hnone. unfold NumpyOrderIndicator.get_metric_series, getitem.
  by rewrite Hnone.
Qed.

Lemma numpy_get_metric_series_absent_raises_witness :
  NumpyOrderIndicator.get_metric_series NumpyOrderIndicator.__init__ "ffr"
  = Raise (KeyError "ffr").
Proof. apply numpy_get_metric_series_absent_raises. reflexivity. Defined.

(** ** Single metrics: alignment, [add], reflected subtraction *)

Lemma align_with_lookup op (s t : pd.Series) (l : string) :
  pd.align_with op s t !! l
  = match s !! l, t !! l with
    | None, None => None
    | oa, ob => Some (op (pd.aligned oa) (pd.aligned ob))
    end.
Proof.
  unfold pd.align_with. rewrite lookup_merge.
  by destruct (s !! l), (t !! l).
Qed.

(** The labels of an aligned result: the union of the operands' labels. *)
Lemma align_with_labels op (s t : pd.Series) :
  dom (pd.align_with op s t) = dom s ∪ dom t.
Proof.
  apply set_eq. intros l.
  rewrite elem_of_union, !elem_of_dom, align_with_lookup.
  unfold is_Some.
  destruct (s !! l) as [a|], (t !! l) as [b|]; simpl;
    (split; [intros [x Hx] | intros [[x Hx]|[x Hx]]]); try discriminate; eauto.
Qed.

Lemma pd_add_labels (s t : pd.Series) fill_value :
  dom (pd.add s t fill_value) = dom s ∪ dom t.
Proof. apply align_with_labels. Qed.

(** Where at most one side is missing, pandas' [add] with a fill value is the
    specification's filled sum. *)
Lemma pd_add_one_side_present (s t : pd.Series) (f : float) (l : string) :
  pd.isna (pd.aligned (s !! l)) && pd.isna (pd.aligned (t !! l)) = false →
  pd.add s t (Some f) !! l = add_filled_spec s t f !! l.
Proof.
  intros Hna. unfold pd.add, add_filled_spec.
  rewrite align_with_lookup, lookup_merge.
  destruct (s !! l) as [a|] eqn:Hs, (t !! l) as [b|] eqn:Ht; simpl in *; try done.
  - destruct (pd.isna a), (pd.isna b); simpl in *; done.
  - change (pd.isna PrimFloat.nan) with true in *.
    destruct (pd.isna a); simpl in *; done.
  - change (pd.isna PrimFloat.nan) with true in *.
    destruct (pd.isna b); simpl in *; done.
Qed.

(** Where both sides are missing, nothing is filled: the cell is the sum of
    the two aligned cells as they are. *)
Lemma pd_add_both_missing (s t : pd.Series) (f : float) (l : string) :
  l ∈ dom s ∪ dom t →
  pd.isna (pd.aligned (s !! l)) && pd.isna (pd.aligned (t !! l)) = true →
  pd.add s t (Some f) !! l
  = Some (PrimFloat.add (pd.aligned (s !! l)) (pd.aligned (t !! l))).
Proof.
  intros Hl Hna. unfold pd.add. rewrite align_with_lookup.
  apply elem_of_union in Hl. rewrite !elem_of_dom in Hl.
  apply andb_true_iff in Hna as [Ha Hb].
  destruct (s !! l) as [a|], (t !! l) as [b|]; simpl in *;
    unfold pd.fill_binop; rewrite ?Ha, ?Hb; simpl; try done.
  destruct Hl as [[? [=]]|[? [=]]].
Qed.

(** C3 (as the code has it): on two metrics that both hold NaN at a shared
    label, [add] with [fill_value = 0] yields the union of the labels, but the
    cell at the shared label stays NaN, where the specification's filled sum
    is [0 + 0 = 0]; the cells with one side present are the filled sums. *)
Theorem pandas_add_fill_both_nan :
  ∃ m, PandasSingleMetric.add metric_s1nan_s2 metric_s1nan_s3 (Some PrimFloat.zero) = Ok m
     ∧ dom (PandasSingleMetric.metric m)
       = dom (PandasSingleMetric.metric metric_s1nan_s2)
         ∪ dom (PandasSingleMetric.metric metric_s1nan_s3)
     ∧ PandasSingleMetric.metric m !! "s1" = Some PrimFloat.nan
     ∧ add_filled_spec (PandasSingleMetric.metric metric_s1nan_s2)
         (PandasSingleMetric.metric metric_s1nan_s3) PrimFloat.zero !! "s1"
       = Some PrimFloat.zero
     ∧ PandasSingleMetric.metric m !! "s2" = Some PrimFloat.one
     ∧ PandasSingleMetric.metric m !! "s3" = Some PrimFloat.two.
Proof.
  eexists. split; [reflexivity|]. split; [apply pd_add_labels|].
  repeat split; vm_compute; reflexivity.
Qed.

(** X3: what does hold of [add] with a fill value, for all metrics: the labels
    are the union, and every cell with at most one side missing is the filled
    sum. *)
Lemma pandas_add_fill_union (self other : PandasSingleMetric.t) (f : float) :
  ∃ m, PandasSingleMetric.add self other (Some f) = Ok m
     ∧ dom (PandasSingleMetric.metric m)
       = dom (PandasSingleMetric.metric self) ∪ dom (PandasSingleMetric.metric other)
     ∧ ∀ l, pd.isna (pd.aligned (PandasSingleMetric.metric self !! l))
            && pd.isna (pd.aligned (PandasSingleMetric.metric other !! l)) = false →
            PandasSingleMetric.metric m !! l
            = add_filled_spec (PandasSingleMetric.metric self)
                (PandasSingleMetric.metric other) f !! l.
Proof.
  eexists. split; [reflexivity|]. split; [apply pd_add_labels|].
  intros l Hl. by apply pd_add_one_side_present.
Qed.

(** C7: reflected subtraction.  With a number [c], every entry [a] of the
    metric becomes [c - a] under the same label, and no label is added or
    lost; with another metric it is that metric minus [self], which is what
    [other.__sub__(self)] computes: per label of the union, the other side's
    cell minus this side's. *)
Theorem rsub_is_other_minus_self (self : PandasSingleMetric.t) :
  (∀ c : float, ∃ m,
      PandasSingleMetric.__rsub__ self (PandasSingleMetric.Scalar c)
      = Ok (PandasSingleMetric.Value m)
      ∧ ∀ l, PandasSingleMetric.metric m !! l
             = (λ a, PrimFloat.sub c a) <$> PandasSingleMetric.metric self !! l)
  ∧ (∀ other : PandasSingleMetric.t,
      PandasSingleMetric.__rsub__ self (PandasSingleMetric.Metric other)
      = PandasSingleMetric.__sub__ other (PandasSingleMetric.Metric self)
      ∧ ∃ m, PandasSingleMetric.__rsub__ self (PandasSingleMetric.Metric other)
             = Ok (PandasSingleMetric.Value m)
           ∧ ∀ l, PandasSingleMetric.metric m !! l
                  = match PandasSingleMetric.metric other !! l,
                          PandasSingleMetric.metric self !! l with
                    | None, None => None
                    | ob, oa => Some (PrimFloat.sub (pd.aligned ob) (pd.aligned oa))
                    end).
Proof.
  split.
  - intros c. eexists. split; [reflexivity|]. intros l. simpl.
    unfold pd.rsub_scalar. apply lookup_fmap.
  - intros other. split; [reflexivity|]. eexists. split; [reflexivity|].
    intros l. simpl. unfold pd.sub_series. apply align_with_lookup.
Qed.

(** [5 - A] for [A = {s1: 1}]: the entry is [4], not [1 - 5 = -4]. *)
Lemma rsub_five_minus_one :
  PandasSingleMetric.__rsub__ metric_s1 (PandasSingleMetric.Scalar 5%float)
  = Ok (PandasSingleMetric.Value (PandasSingleMetric.mk {[ "s1" := 4%float ]}))
  ∧ PandasSingleMetric.__sub__ metric_s1 (PandasSingleMetric.Scalar 5%float)
    = Ok (PandasSingleMetric.Value (PandasSingleMetric.mk {[ "s1" := (-4)%float ]})).
Proof. split; vm_compute; reflexivity. Qed.

(** ** [sum_all_indicators] *)

(** A loop whose body never raises runs to its end: it is a left fold. *)
Lemma for_each_total {S A : Type} (body : S → A → result S) (step : S → A → S)
    (l : list A) (s : S) :
  (∀ s x, body s x = Ok (step s x)) →
  for_each body s l = Ok (foldl step s l).
Proof.
  intros Hbody. revert s. induction l as [|x l IH]; intros s; [done|].
  simpl. rewrite Hbody. simpl. apply IH.
Qed.

(** Storing the same value under each name of a list, one after the other. *)
Lemma foldl_insert_other {V : Type} (v : V) (names : list string)
    (d : gmap string V) (name : string) :
  name ∉ names →
  foldl (λ d n, <[n := v]> d) d names !! name = d !! name.
Proof.
  revert d. induction names as [|n names IH]; intros d Hnot; [done|].
  apply not_elem_of_cons in Hnot as [Hne Hnot]. simpl.
  rewrite IH by done. by apply lookup_insert_ne.
Qed.

Lemma foldl_insert_lookup {V : Type} (v : V) (names : list string)
    (d : gmap string V) (name : string) :
  name ∈ names →
  foldl (λ d n, <[n := v]> d) d names !! name = Some v.
Proof.
  revert d. induction names as [|n names IH]; intros d Hin.
  - by apply elem_of_nil in Hin.
  - simpl. destruct (decide (name ∈ names)) as [Hlater|Hlast].
    + by apply IH.
    + apply elem_of_cons in Hin as [->|Hin]; [|done].
      rewrite foldl_insert_other by done. apply lookup_insert_eq.
Qed.

(** With no indicator to sum, each backend stores its empty metric under every
    requested name, one name after the other. *)
Lemma pandas_sum_no_indicators target metrics fill_value :
  PandasOrderIndicator.sum_all_indicators target [] metrics fill_value
  = Ok (PandasOrderIndicator.mk
          (foldl (λ d n, <[n := PandasSingleMetric.mk pd.Series_empty]> d)
                 (PandasOrderIndicator.data target) (metric_names metrics))).
Proof.
  unfold PandasOrderIndicator.sum_all_indicators.
  rewrite (for_each_total _
             (λ t n, PandasOrderIndicator.mk
                       (<[n := PandasSingleMetric.mk pd.Series_empty]>
                          (PandasOrderIndicator.data t)))) by done.
  f_equal. generalize (metric_names metrics). intros names. revert target.
  induction names as [|n names IH]; intros target; [by destruct target|].
  simpl. by rewrite IH.
Qed.

Lemma numpy_sum_no_indicators Series_add target metrics fill_value :
  NumpyOrderIndicator.sum_all_indicators Series_add target [] metrics fill_value
  = Ok (NumpyOrderIndicator.mk
          (foldl (λ d n, <[n := IndexData.Series_empty]> d)
                 (NumpyOrderIndicator.data target) (metric_names metrics))).
Proof.
  unfold NumpyOrderIndicator.sum_all_indicators.
  rewrite (for_each_total _
             (λ t n, NumpyOrderIndicator.mk
                       (<[n := IndexData.Series_empty]>
                          (NumpyOrderIndicator.data t)))) by done.
  f_equal. generalize (metric_names metrics). intros names. revert target.
  induction names as [|n names IH]; intros target; [by destruct target|].
  simpl. by rewrite IH.
Qed.

(** C4: with [indicators = []], [sum_all_indicators] does not raise in either
    backend, for every target, every requested name or list of names and
    every fill value (given or left out), and the target then holds a metric
    of length zero under each requested name. *)
Theorem sum_all_indicators_no_indicators
    (metrics : metrics_arg) (fill_value : kwarg (option float)) :
  (∀ target : PandasOrderIndicator.t, ∃ target',
      PandasOrderIndicator.sum_all_indicators target [] metrics fill_value = Ok target'
      ∧ ∀ name, name ∈ metric_names metrics →
          ∃ m, PandasOrderIndicator.data target' !! name = Some m
             ∧ PandasSingleMetric.__len__ m = 0
             ∧ PandasSingleMetric.empty m = true)
  ∧ (∀ Series_add (target : NumpyOrderIndicator.t), ∃ target',
      NumpyOrderIndicator.sum_all_indicators Series_add target [] metrics fill_value
      = Ok target'
      ∧ ∀ name, name ∈ metric_names metrics →
          ∃ s, NumpyOrderIndicator.data target' !! name = Some s
             ∧ IndexData.len s = 0
             ∧ IndexData.empty s = true).
Proof.
  split.
  - intros target. eexists. split; [apply pandas_sum_no_indicators|].
    intros name Hin. eexists. split; [by apply foldl_insert_lookup|done].
  - intros Series_add target. eexists. split; [apply numpy_sum_no_indicators|].
    intros name Hin. eexists. split; [by apply foldl_insert_lookup|done].
Qed.

(** The default matters: summing the single indicator [{x: {s1: 1}}] in the
    reference backend leaves [s1] missing (NaN) with the default, and gives
    [1] with [fill_value = 0]. *)
Lemma pandas_sum_default_leaves_missing :
  (target ← PandasOrderIndicator.sum_all_indicators PandasOrderIndicator.__init__
              [PandasOrderIndicator.mk {[ "x" := metric_s1 ]}] (OneMetric "x") Omitted;
   PandasOrderIndicator.get_metric_series target "x")
  = Ok {[ "s1" := PrimFloat.nan ]}
  ∧ (target ← PandasOrderIndicator.sum_all_indicators PandasOrderIndicator.__init__
                [PandasOrderIndicator.mk {[ "x" := metric_s1 ]}] (OneMetric "x")
                (Given (Some PrimFloat.zero));
     PandasOrderIndicator.get_metric_series target "x")
    = Ok {[ "s1" := PrimFloat.one ]}.
Proof. split; vm_compute; reflexivity. Qed.

(** ** The performance quote engine: fast path and empty slices *)

(** The position map of a list of labels: no position for a label that is not
    in the list, and the position of each label when the labels are unique. *)
Lemma positions_absent `{Countable K} (labels : list K) (k : K) :
  k ∉ labels →
  (list_to_map (zip labels (seq 0 (length labels))) : gmap K nat) !! k = None.
Proof.
  intros Hk. apply not_elem_of_list_to_map_1.
  rewrite fst_zip; [done|]. by rewrite length_seq.
Qed.

Lemma positions_present `{Countable K} (labels : list K) (k : K) (i : nat) :
  NoDup labels → labels !! i = Some k →
  (list_to_map (zip labels (seq 0 (length labels))) : gmap K nat) !! k = Some i.
Proof.
  intros Hnodup Hi.
  assert (Hlen : (length labels ≤ length (seq 0 (length labels)))%nat)
    by (by rewrite length_seq).
  apply elem_of_list_to_map_1; [by rewrite fst_zip|].
  apply list_elem_of_lookup. exists i.
  apply lookup_zip_with_Some. exists k, i. split; [done|]. split; [done|].
  apply lookup_seq_lt. by eapply lookup_lt_Some.
Qed.

Lemma positions_known `{Countable K} (labels : list K) (k : K) :
  k ∈ labels →
  is_Some ((list_to_map (zip labels (seq 0 (length labels))) : gmap K nat) !! k).
Proof.
  intros Hk. apply not_eq_None_Some. intros Hnone.
  apply not_elem_of_list_to_map_2 in Hnone.
  rewrite fst_zip in Hnone; [done|]. by rewrite length_seq.
Qed.

(** No label in the range: the slice has no row. *)
Lemma rows_between_none (df : IndexData.DataFrame) (start_time end_time : Timestamp) :
  (∀ t, t ∈ IndexData.index df → ¬ (start_time ≤ t ≤ end_time)%Z) →
  IndexData.rows_between df start_time end_time = [].
Proof.
  intros Hout. apply elem_of_nil_inv. intros [t row] Hin.
  unfold IndexData.rows_between in Hin.
  apply list_elem_of_filter in Hin as [Hrange Hin].
  apply elem_of_zip_l in Hin. by apply (Hout t).
Qed.

Lemma getitem_present {V : Type} (d : gmap string V) (key : string) (v : V) :
  d !! key = Some v → getitem d key = Ok v.
Proof. intros Hv. unfold getitem. by rewrite Hv. Qed.

Lemma known_stock (self : CN1min_NumpyQuote.t) (stock_id : string) df :
  CN1min_NumpyQuote.data self !! stock_id = Some df →
  bool_decide (stock_id ∉ CN1min_NumpyQuote.get_all_stock self) = false.
Proof.
  intros Hdf. apply bool_decide_eq_false_2. intros Hnot. apply Hnot.
  unfold CN1min_NumpyQuote.get_all_stock. apply elem_of_dom. eauto.
Qed.

(** Entering [get_data] for a stock that is in the data: past the stock-id
    check, with the stock's table at hand. *)
Ltac enter_known_stock Hdf :=
  unfold CN1min_NumpyQuote.get_data;
  rewrite (known_stock _ _ _ Hdf), (getitem_present _ _ _ Hdf); simpl.

(** C8: on the fast path (the arguments pass the check of [fields] against
    [method], the stock is known and [if_single_data] holds), a start time
    that is not a label of the stock's table gives [None]; a start time that
    is the label of row [i] gives that row as it is when no field is asked
    for, and the cell of the asked field in that row otherwise, whatever the
    method. *)
Theorem get_data_single_timestamp
    (if_single_data : Timestamp → Timestamp → Timedelta → bool)
    (self : CN1min_NumpyQuote.t) (stock_id : string) (df : IndexData.DataFrame)
    (start_time end_time : Timestamp)
    (fields : option string) (method : option method_t) :
  CN1min_NumpyQuote.data self !! stock_id = Some df →
  (fields = None → method = None) →
  if_single_data start_time end_time CN1min_NumpyQuote.freq = true →
  (start_time ∉ IndexData.index df →
     CN1min_NumpyQuote.get_data if_single_data self stock_id start_time end_time
       fields method = Ok None)
  ∧ (∀ i row,
       NoDup (IndexData.index df) →
       IndexData.index df !! i = Some start_time →
       IndexData.values df !! i = Some row →
       match fields with
       | None =>
           CN1min_NumpyQuote.get_data if_single_data self stock_id start_time end_time
             fields method = Ok (Some (Row row))
       | Some field =>
           ∀ j x,
             NoDup (IndexData.columns df) →
             IndexData.columns df !! j = Some field →
             row !! j = Some x →
             CN1min_NumpyQuote.get_data if_single_data self stock_id start_time
               end_time fields method = Ok (Some (Number x))
       end).
Proof.
  intros Hdf Hvalid Hsingle. split.
  - intros Habsent. enter_known_stock Hdf.
    rewrite Hsingle. unfold IndexData.index_map.
    rewrite (positions_absent _ _ Habsent).
    destruct fields, method; try done. by specialize (Hvalid eq_refl).
  - intros i row Hnodup Hi Hrow. enter_known_stock Hdf.
    rewrite Hsingle. unfold IndexData.index_map.
    rewrite (positions_present _ _ _ Hnodup Hi).
    destruct fields as [field|].
    + intros j x Hcols Hj Hx. unfold IndexData.columns_map.
      rewrite (getitem_present _ _ j) by (by apply positions_present).
      simpl. unfold seq_getitem. rewrite Hrow. simpl. rewrite Hx.
      by destruct method.
    + rewrite (Hvalid eq_refl). unfold seq_getitem. by rewrite Hrow.
Qed.

Lemma get_data_single_timestamp_witness :
  (CN1min_NumpyQuote.data scenario_quote !! "A" = Some quote_A
   ∧ if_single_data_spec (3 * minute)%Z (3 * minute)%Z CN1min_NumpyQuote.freq = true)
  ∧ ((3 * minute)%Z ∉ IndexData.index quote_A →
       CN1min_NumpyQuote.get_data if_single_data_spec scenario_quote "A"
         (3 * minute)%Z (3 * minute)%Z None None = Ok None)
    ∧ (∀ i row,
         NoDup (IndexData.index quote_A) →
         IndexData.index quote_A !! i = Some (3 * minute)%Z →
         IndexData.values quote_A !! i = Some row →
         CN1min_NumpyQuote.get_data if_single_data_spec scenario_quote "A"
           (3 * minute)%Z (3 * minute)%Z None None = Ok (Some (Row row))).
Proof.
  split; [split; reflexivity|].
  apply (get_data_single_timestamp if_single_data_spec scenario_quote "A" quote_A
           (3 * minute)%Z (3 * minute)%Z None None);
    [reflexivity | intros _; reflexivity | reflexivity].
Defined.

(** The scenario of the specification on the fast path: [t4] is absent, [t2]
    is the second row. *)
Lemma scenario_fast_path :
  CN1min_NumpyQuote.get_data if_single_data_spec scenario_quote "A"
    (3 * minute)%Z (3 * minute)%Z None None = Ok None
  ∧ CN1min_NumpyQuote.get_data if_single_data_spec scenario_quote "A"
      minute minute None None = Ok (Some (Row [11%float]))
  ∧ CN1min_NumpyQuote.get_data if_single_data_spec scenario_quote "A"
      minute minute (Some "$close") (Some (MStr "mean")) = Ok (Some (Number 11%float))
  ∧ CN1min_NumpyQuote.get_data if_single_data_spec scenario_quote "B"
      0%Z 0%Z None None = Ok None.
Proof. repeat split; vm_compute; reflexivity. Qed.

(** C10: on the multi-timestamp path of the performance backend, for a known
    stock whose table has no label in [[start_time, end_time]], [get_data]
    answers [None] without a field and a method, with a field of the table
    and no method, and with a field of the table and any method. *)
Theorem get_data_empty_slice
    (if_single_data : Timestamp → Timestamp → Timedelta → bool)
    (self : CN1min_NumpyQuote.t) (stock_id : string) (df : IndexData.DataFrame)
    (start_time end_time : Timestamp) :
  CN1min_NumpyQuote.data self !! stock_id = Some df →
  if_single_data start_time end_time CN1min_NumpyQuote.freq = false →
  (∀ t, t ∈ IndexData.index df → ¬ (start_time ≤ t ≤ end_time)%Z) →
  CN1min_NumpyQuote.get_data if_single_data self stock_id start_time end_time
    None None = Ok None
  ∧ ∀ field, field ∈ IndexData.columns df →
      CN1min_NumpyQuote.get_data if_single_data self stock_id start_time end_time
        (Some field) None = Ok None
      ∧ ∀ method,
          CN1min_NumpyQuote.get_data if_single_data self stock_id start_time end_time
            (Some field) (Some method) = Ok None.
Proof.
  intros Hdf Hmulti Hout.
  assert (Hloc : ∀ field, field ∈ IndexData.columns df →
            IndexData.loc_field df start_time end_time field
            = Ok (IndexData.mkSeries [] [])).
  { intros field Hfield. unfold IndexData.loc_field, IndexData.columns_map.
    destruct (positions_known _ _ Hfield) as [j Hj].
    rewrite (getitem_present _ _ _ Hj). simpl.
    by rewrite (rows_between_none _ _ _ Hout). }
  split; [|intros field Hfield; split; [|intros method]];
    enter_known_stock Hdf; rewrite Hmulti, ?(Hloc _ Hfield); try done.
  unfold IndexData.loc, IndexData.frame_empty. simpl.
  by rewrite (rows_between_none _ _ _ Hout).
Qed.

Lemma get_data_empty_slice_witness :
  CN1min_NumpyQuote.get_data if_single_data_spec scenario_quote "A"
    (3 * minute)%Z (5 * minute)%Z None None = Ok None
  ∧ ∀ field, field ∈ IndexData.columns quote_A →
      CN1min_NumpyQuote.get_data if_single_data_spec scenario_quote "A"
        (3 * minute)%Z (5 * minute)%Z (Some field) None = Ok None
      ∧ ∀ method,
          CN1min_NumpyQuote.get_data if_single_data_spec scenario_quote "A"
            (3 * minute)%Z (5 * minute)%Z (Some field) (Some method) = Ok None.
Proof.
  apply (get_data_empty_slice if_single_data_spec scenario_quote "A" quote_A);
    [reflexivity | reflexivity |].
  intros t Ht [Hlo Hhi]. unfold quote_A, minute in *. simpl in Ht.
  repeat (apply elem_of_cons in Ht as [->|Ht]; [lia|]).
  by apply elem_of_nil in Ht.
Defined.

(** The scenario of the specification on the multi-timestamp path: the mean of
    [$close] over the three minutes, its last value, and the whole column. *)
Lemma scenario_multi_path :
  CN1min_NumpyQuote.get_data if_single_data_spec scenario_quote "A"
    0%Z (2 * minute)%Z (Some "$close") (Some (MStr "mean")) = Ok (Some (Number 11%float))
  ∧ CN1min_NumpyQuote.get_data if_single_data_spec scenario_quote "A"
      0%Z (2 * minute)%Z (Some "$close") (Some (MStr "last")) = Ok (Some (Number 12%float))
  ∧ CN1min_NumpyQuote.get_data if_single_data_spec scenario_quote "A"
      0%Z (2 * minute)%Z None None
    = Ok (Some (Array2D [[10%float]; [11%float]; [12%float]])).
Proof. repeat split; vm_compute; reflexivity. Qed.

(** * Further properties of the module *)

(** ** Floats: how NaN propagates *)

Lemma SFcompare_refl (s : spec_float) : s ≠ S754_nan → SFcompare s s = Some Eq.
Proof.
  destruct s as [sg|sg| |sg m e]; intros Hs; try done; simpl.
  - by destruct sg.
  - destruct sg; by rewrite Z.compare_refl, Pos.compare_cont_refl.
Qed.

Lemma is_nan_Prim2SF (x : float) : PrimFloat.is_nan x = true → Prim2SF x = S754_nan.
Proof.
  unfold PrimFloat.is_nan. rewrite FloatAxioms.eqb_spec. unfold SFeqb.
  intros Hx. destruct (Prim2SF x) as [sg|sg| |sg m e] eqn:Hs; [..|done|];
    by rewrite SFcompare_refl in Hx.
Qed.

Lemma Prim2SF_is_nan (x : float) : Prim2SF x = S754_nan → PrimFloat.is_nan x = true.
Proof.
  intros Hx. unfold PrimFloat.is_nan.
  by rewrite FloatAxioms.eqb_spec, Hx.
Qed.

(** An operation with a NaN operand gives NaN. *)
Lemma arith_nan_l (o : arith) (x y : float) :
  PrimFloat.is_nan x = true → PrimFloat.is_nan (arith_op o x y) = true.
Proof.
  intros Hx%is_nan_Prim2SF. apply Prim2SF_is_nan. destruct o; simpl.
  - by rewrite FloatAxioms.add_spec, Hx.
  - by rewrite FloatAxioms.sub_spec, Hx.
  - by rewrite FloatAxioms.mul_spec, Hx.
  - by rewrite FloatAxioms.div_spec, Hx.
Qed.

Lemma arith_nan_r (o : arith) (x y : float) :
  PrimFloat.is_nan y = true → PrimFloat.is_nan (arith_op o x y) = true.
Proof.
  intros Hy%is_nan_Prim2SF. apply Prim2SF_is_nan. destruct o; simpl.
  - rewrite FloatAxioms.add_spec, Hy. by destruct (Prim2SF x).
  - rewrite FloatAxioms.sub_spec, Hy. by destruct (Prim2SF x).
  - rewrite FloatAxioms.mul_spec, Hy. by destruct (Prim2SF x).
  - rewrite FloatAxioms.div_spec, Hy. by destruct (Prim2SF x).
Qed.

Lemma abs_abs (x : float) : PrimFloat.abs (PrimFloat.abs x) = PrimFloat.abs x.
Proof.
  apply Prim2SF_inj. rewrite !FloatAxioms.abs_spec. by destruct (Prim2SF x).
Qed.

(** ** Single metrics: the operators, [add], [count], [abs] *)

(** X4: an operator with a number keeps the labels: the result has the
    entries of [self], each combined with the number, under the same labels
    and in the same number. *)
Theorem scalar_operator_keeps_labels
    (o : arith) (self : PandasSingleMetric.t) (c : float) :
  ∃ m, arith_method o self (PandasSingleMetric.Scalar c)
       = Ok (PandasSingleMetric.Value m)
     ∧ dom (PandasSingleMetric.metric m) = dom (PandasSingleMetric.metric self)
     ∧ PandasSingleMetric.__len__ m = PandasSingleMetric.__len__ self
     ∧ ∀ l, PandasSingleMetric.metric m !! l
            = (λ a, arith_op o a c) <$> PandasSingleMetric.metric self !! l.
Proof.
  destruct o; (eexists; split; [reflexivity|]); simpl;
    (split; [apply dom_fmap_L|]); (split; [apply map_size_fmap|]);
    intros l; apply lookup_fmap.
Qed.

(** What an aligned operation gives at a label that one side lacks, when the
    operation propagates NaN. *)
Lemma align_with_one_sided (o : arith) (s t : pd.Series) (l : string) (v : float) :
  pd.align_with (arith_op o) s t !! l = Some v →
  s !! l = None ∨ t !! l = None →
  PrimFloat.is_nan v = true.
Proof.
  rewrite align_with_lookup. intros Hv Hside.
  destruct (s !! l) as [a|], (t !! l) as [b|]; simpl in *;
    try discriminate; injection Hv as <-.
  - by destruct Hside.
  - by apply arith_nan_r.
  - by apply arith_nan_l.
Qed.

(** X5: an operator between two metrics works on the union of their labels:
    where both have an entry the result is the operation on the two entries,
    and where only one has an entry the result is NaN. *)
Theorem metric_operator_aligns
    (o : arith) (self other : PandasSingleMetric.t) :
  ∃ m, arith_method o self (PandasSingleMetric.Metric other)
       = Ok (PandasSingleMetric.Value m)
     ∧ dom (PandasSingleMetric.metric m)
       = dom (PandasSingleMetric.metric self) ∪ dom (PandasSingleMetric.metric other)
     ∧ (∀ l a b,
          PandasSingleMetric.metric self !! l = Some a →
          PandasSingleMetric.metric other !! l = Some b →
          PandasSingleMetric.metric m !! l = Some (arith_op o a b))
     ∧ (∀ l v,
          PandasSingleMetric.metric m !! l = Some v →
          PandasSingleMetric.metric self !! l = None
          ∨ PandasSingleMetric.metric other !! l = None →
          PrimFloat.is_nan v = true).
Proof.
  exists (PandasSingleMetric.mk
            (pd.align_with (arith_op o) (PandasSingleMetric.metric self)
               (PandasSingleMetric.metric other))).
  split; [by destruct o|]. simpl. split; [apply align_with_labels|]. split.
  - intros l a b Ha Hb. by rewrite align_with_lookup, Ha, Hb.
  - intros l v. apply align_with_one_sided.
Qed.

(** X6: [add] without a fill value is the [+] operator between the two
    metrics. *)
Theorem add_without_fill_is_plus (self other : PandasSingleMetric.t) :
  ∃ m, PandasSingleMetric.add self other None = Ok m
     ∧ PandasSingleMetric.__add__ self (PandasSingleMetric.Metric other)
       = Ok (PandasSingleMetric.Value m).
Proof. eexists. split; reflexivity. Qed.

(** X7: [count] never exceeds the length, and equals it exactly when no entry
    is NaN. *)
Theorem count_against_len (self : PandasSingleMetric.t) :
  (PandasSingleMetric.count self ≤ PandasSingleMetric.__len__ self)%nat
  ∧ (PandasSingleMetric.count self = PandasSingleMetric.__len__ self
     ↔ ∀ l v, PandasSingleMetric.metric self !! l = Some v →
              PrimFloat.is_nan v = false).
Proof.
  unfold PandasSingleMetric.count, PandasSingleMetric.__len__, pd.count, pd.len.
  destruct self as [s]. simpl. split; [apply map_subseteq_size, map_filter_subseteq|].
  split.
  - intros Hsize l v Hl.
    assert (Heq : filter (λ kv : string * float, pd.isna kv.2 = false) s = s).
    { apply map_subseteq_size_eq; [apply map_filter_subseteq|lia]. }
    rewrite <- Heq in Hl. by apply map_lookup_filter_Some in Hl as [_ Hv].
  - intros Hall. f_equal. apply map_filter_id. intros l v Hl. by apply (Hall l).
Qed.

(** X8: [abs] keeps the labels, takes the absolute value of every entry, and
    applying it again changes nothing. *)
Theorem abs_keeps_labels_idempotent (self : PandasSingleMetric.t) :
  ∃ m, PandasSingleMetric.abs self = Ok m
     ∧ dom (PandasSingleMetric.metric m) = dom (PandasSingleMetric.metric self)
     ∧ (∀ l, PandasSingleMetric.metric m !! l
             = PrimFloat.abs <$> PandasSingleMetric.metric self !! l)
     ∧ PandasSingleMetric.abs m = Ok m.
Proof.
  eexists. split; [reflexivity|]. simpl. split; [apply dom_fmap_L|].
  split; [intros l; apply lookup_fmap|].
  unfold PandasSingleMetric.abs, pd.abs. simpl. do 2 f_equal.
  rewrite <- map_fmap_compose. apply map_fmap_ext. intros l x _. apply abs_abs.
Qed.

(** ** Order indicators: [assign], [to_series], [get_index_data], [transfer] *)

(** X9: in the reference backend, a metric assigned from a [dict] or from a
    series is what [get_metric_series] then returns under that name, and the
    series under every other name is what it was. *)
Theorem pandas_assign_then_get_metric_series
    (self : PandasOrderIndicator.t) (col : string) (d : gmap string float) :
  ∃ self',
    PandasOrderIndicator.assign self col (PandasSingleMetric.FromDict d) = Ok self'
    ∧ PandasOrderIndicator.assign self col (PandasSingleMetric.FromSeries d) = Ok self'
    ∧ PandasOrderIndicator.get_metric_series self' col = Ok d
    ∧ ∀ other, other ≠ col →
        PandasOrderIndicator.get_metric_series self' other
        = PandasOrderIndicator.get_metric_series self other.
Proof.
  eexists. split; [reflexivity|]. split; [reflexivity|]. split.
  - rewrite pandas_get_metric_series. simpl. by rewrite lookup_insert_eq.
  - intros other Hne. rewrite !pandas_get_metric_series. simpl.
    by rewrite lookup_insert_ne.
Qed.

(** X10: in the reference backend [to_series] has exactly the assigned names,
    and under each of them the series that [get_metric_series] returns. *)
Theorem pandas_to_series_agrees (self : PandasOrderIndicator.t) :
  dom (PandasOrderIndicator.to_series self) = dom (PandasOrderIndicator.data self)
  ∧ ∀ name s,
      PandasOrderIndicator.to_series self !! name = Some s
      ↔ name ∈ dom (PandasOrderIndicator.data self)
        ∧ PandasOrderIndicator.get_metric_series self name = Ok s.
Proof.
  unfold PandasOrderIndicator.to_series. split; [apply dom_fmap_L|].
  intros name s. rewrite lookup_fmap, pandas_get_metric_series, elem_of_dom.
  destruct (PandasOrderIndicator.data self !! name) as [m|]; simpl.
  - split; [intros [= <-]; eauto | by intros [_ [= <-]]].
  - split; [done | by intros [[? [=]] _]].
Qed.

(** [get_index_data] in each backend, by the name's presence. *)
Lemma pandas_get_index_data (self : PandasOrderIndicator.t) (name : string) :
  PandasOrderIndicator.get_index_data self name
  = Ok (match PandasOrderIndicator.data self !! name with
        | Some m => IndexData.Series_of_dict (PandasSingleMetric.metric m)
        | None => IndexData.Series_empty
        end).
Proof.
  unfold PandasOrderIndicator.get_index_data, getitem.
  destruct (PandasOrderIndicator.data self !! name) as [m|] eqn:Hm.
  - rewrite bool_decide_eq_true_2; [done|]. apply elem_of_dom. eauto.
  - rewrite bool_decide_eq_false_2; [done|]. by apply not_elem_of_dom.
Qed.

Lemma numpy_get_index_data (self : NumpyOrderIndicator.t) (name : string) :
  NumpyOrderIndicator.get_index_data self name
  = Ok (default IndexData.Series_empty (NumpyOrderIndicator.data self !! name)).
Proof.
  unfold NumpyOrderIndicator.get_index_data, getitem.
  destruct (NumpyOrderIndicator.data self !! name) as [s|] eqn:Hs.
  - rewrite bool_decide_eq_true_2; [done|]. apply elem_of_dom. eauto.
  - rewrite bool_decide_eq_false_2; [done|]. by apply not_elem_of_dom.
Qed.

(** X11: [get_index_data] never raises, in either backend: a name that was
    never assigned gives the empty [IndexData.Series], an assigned one its
    metric (converted, in the reference backend). *)
Theorem get_index_data_falls_back :
  (∀ (self : PandasOrderIndicator.t) name,
      PandasOrderIndicator.get_index_data self name
      = Ok (match PandasOrderIndicator.data self !! name with
            | Some m => IndexData.Series_of_dict (PandasSingleMetric.metric m)
            | None => IndexData.Series_empty
            end))
  ∧ (∀ (self : NumpyOrderIndicator.t) name,
      NumpyOrderIndicator.get_index_data self name
      = Ok (default IndexData.Series_empty (NumpyOrderIndicator.data self !! name))).
Proof. split; [apply pandas_get_index_data | apply numpy_get_index_data]. Qed.

(** Inserting the image of every pair of a list of pairs with distinct
    keys. *)
Lemma foldl_insert_pairs_lookup {V W : Type} (f : V → W) (l : list (string * V))
    (acc : gmap string W) (k : string) :
  NoDup l.*1 →
  foldl (λ acc kv, <[kv.1 := f kv.2]> acc) acc l !! k
  = match (list_to_map l : gmap string V) !! k with
    | Some v => Some (f v)
    | None => acc !! k
    end.
Proof.
  revert acc. induction l as [|[k0 v0] l IH]; intros acc Hnodup; [done|].
  apply NoDup_cons in Hnodup as [Hfresh Hnodup]. simpl.
  rewrite IH by done. destruct (decide (k = k0)) as [->|Hne].
  - rewrite lookup_insert_eq, (not_elem_of_list_to_map_1 _ _ Hfresh).
    by rewrite lookup_insert_eq.
  - by rewrite !lookup_insert_ne.
Qed.

(** The loop of [to_series] over names that are all in the data. *)
Lemma numpy_to_series_loop (self : NumpyOrderIndicator.t)
    (l : list (string * IndexData.Series string)) (acc : gmap string pd.Series) :
  (∀ kv, kv ∈ l → NumpyOrderIndicator.data self !! kv.1 = Some kv.2) →
  for_each
    (λ tmp_metric_dict metric,
       s ← NumpyOrderIndicator.get_metric_series self metric;
       Ok (<[metric := s]> tmp_metric_dict))
    acc l.*1
  = Ok (foldl (λ acc kv, <[kv.1 := IndexData.to_pd_series kv.2]> acc) acc l).
Proof.
  revert acc. induction l as [|[k v] l IH]; intros acc Hin; [done|].
  simpl. rewrite (numpy_get_metric_series_present self k v).
  - simpl. apply IH. intros kv Hkv. apply Hin. by right.
  - apply (Hin (k, v)). by left.
Qed.

(** X12: in the performance backend [to_series] never raises (it only asks
    [get_metric_series] for names that are in the data): it gives every stored
    metric, converted, under its name. *)
Theorem numpy_to_series_never_raises (self : NumpyOrderIndicator.t) :
  NumpyOrderIndicator.to_series self
  = Ok (IndexData.to_pd_series <$> NumpyOrderIndicator.data self).
Proof.
  unfold NumpyOrderIndicator.to_series. rewrite numpy_to_series_loop.
  - f_equal. apply map_eq. intros k.
    rewrite foldl_insert_pairs_lookup by apply NoDup_fst_map_to_list.
    rewrite list_to_map_to_list, lookup_fmap, lookup_empty.
    by destruct (NumpyOrderIndicator.data self !! k).
  - intros [k v] Hkv. by apply elem_of_map_to_list.
Qed.

(** The keyword arguments of [transfer]: when every parameter names a metric
    of the data, the metrics under the parameters' names and nothing else. *)
Lemma func_kwargs_present {M : Type} (data : gmap string M) (func_sig : list string)
    (acc : gmap string M) :
  (∀ p, p ∈ func_sig → is_Some (data !! p)) →
  ∃ kwargs,
    for_each (λ kwargs sig, v ← getitem data sig; Ok (<[sig := v]> kwargs)) acc func_sig
    = Ok kwargs
    ∧ ∀ k, kwargs !! k = if decide (k ∈ func_sig) then data !! k else acc !! k.
Proof.
  revert acc. induction func_sig as [|p func_sig IH]; intros acc Hall.
  - exists acc. split; [done|]. intros k. by rewrite decide_False by apply not_elem_of_nil.
  - destruct (Hall p) as [v Hv]; [by left|].
    destruct (IH (<[p := v]> acc)) as (kwargs & Hloop & Hlookup).
    { intros q Hq. apply Hall. by right. }
    exists kwargs. split.
    + simpl. rewrite (getitem_present _ _ _ Hv). exact Hloop.
    + intros k. rewrite Hlookup.
      destruct (decide (k ∈ func_sig)) as [Hin|Hnotin].
      * rewrite decide_True; [done | by right].
      * destruct (decide (k = p)) as [->|Hne].
        -- rewrite decide_True by (by left). by rewrite lookup_insert_eq.
        -- rewrite decide_False by (by intros [?|?]%elem_of_cons).
           by rewrite lookup_insert_ne.
Qed.

(** The first parameter that names no metric of the data stops the
    construction of the keyword arguments with a [KeyError]. *)
Lemma func_kwargs_missing {M : Type} (data : gmap string M)
    (before : list string) (name : string) (after : list string)
    (acc : gmap string M) :
  (∀ p, p ∈ before → is_Some (data !! p)) →
  data !! name = None →
  for_each (λ kwargs sig, v ← getitem data sig; Ok (<[sig := v]> kwargs)) acc
    (before ++ name :: after)%list
  = Raise (KeyError name).
Proof.
  revert acc. induction before as [|p before IH]; intros acc Hall Hnone.
  - simpl. unfold getitem. by rewrite Hnone.
  - destruct (Hall p) as [v Hv]; [by left|]. simpl.
    rewrite (getitem_present _ _ _ Hv). simpl. apply IH; [|done].
    intros q Hq. apply Hall. by right.
Qed.

(** X13: [transfer] with a function one of whose parameters names no metric of
    the indicator raises [KeyError] for the first such parameter, in both
    backends, whatever the body of the function and whether or not a new
    column is asked for. *)
Theorem transfer_missing_parameter
    (before : list string) (name : string) (after : list string)
    (new_col : option string) :
  (∀ (self : PandasOrderIndicator.t) func,
      parameters func = (before ++ name :: after)%list →
      (∀ p, p ∈ before → is_Some (PandasOrderIndicator.data self !! p)) →
      PandasOrderIndicator.data self !! name = None →
      PandasOrderIndicator.transfer self func new_col = Raise (KeyError name))
  ∧ (∀ (self : NumpyOrderIndicator.t) func,
      parameters func = (before ++ name :: after)%list →
      (∀ p, p ∈ before → is_Some (NumpyOrderIndicator.data self !! p)) →
      NumpyOrderIndicator.data self !! name = None →
      NumpyOrderIndicator.transfer self func new_col = Raise (KeyError name)).
Proof.
  split; intros self func Hsig Hbefore Hnone.
  - unfold PandasOrderIndicator.transfer, func_kwargs_of.
    by rewrite Hsig, func_kwargs_missing.
  - unfold NumpyOrderIndicator.transfer, func_kwargs_of.
    by rewrite Hsig, func_kwargs_missing.
Qed.

(** X14: when every parameter of the function names a metric of the
    indicator, [transfer] calls the function on exactly the metrics under its
    parameters' names; an exception of the function propagates; with a new
    column the result is stored under it, the other metrics staying as they
    are, and nothing is returned; without one the indicator is unchanged and
    the result is returned.  Both backends. *)
Theorem transfer_passes_named_metrics (new_col : option string) :
  (∀ (self : PandasOrderIndicator.t) func,
      (∀ p, p ∈ parameters func → is_Some (PandasOrderIndicator.data self !! p)) →
      ∃ kwargs,
        (∀ k, kwargs !! k = if decide (k ∈ parameters func)
                            then PandasOrderIndicator.data self !! k else None)
        ∧ PandasOrderIndicator.transfer self func new_col
          = match call func kwargs with
            | Raise e => Raise e
            | Ok tmp_metric =>
                Ok (match new_col with
                    | Some col =>
                        (PandasOrderIndicator.mk
                           (<[col := tmp_metric]> (PandasOrderIndicator.data self)),
                         None)
                    | None => (self, Some tmp_metric)
                    end)
            end)
  ∧ (∀ (self : NumpyOrderIndicator.t) func,
      (∀ p, p ∈ parameters func → is_Some (NumpyOrderIndicator.data self !! p)) →
      ∃ kwargs,
        (∀ k, kwargs !! k = if decide (k ∈ parameters func)
                            then NumpyOrderIndicator.data self !! k else None)
        ∧ NumpyOrderIndicator.transfer self func new_col
          = match call func kwargs with
            | Raise e => Raise e
            | Ok tmp_metric =>
                Ok (match new_col with
                    | Some col =>
                        (NumpyOrderIndicator.mk
                           (<[col := tmp_metric]> (NumpyOrderIndicator.data self)),
                         None)
                    | None => (self, Some tmp_metric)
                    end)
            end).
Proof.
  split; intros self func Hall.
  - destruct (func_kwargs_present _ _ ∅ Hall) as (kwargs & Hloop & Hlookup).
    exists kwargs. split.
    + intros k. rewrite Hlookup. by case_decide.
    + unfold PandasOrderIndicator.transfer, func_kwargs_of. rewrite Hloop. simpl.
      by destruct (call func kwargs), new_col.
  - destruct (func_kwargs_present _ _ ∅ Hall) as (kwargs & Hloop & Hlookup).
    exists kwargs. split.
    + intros k. rewrite Hlookup. by case_decide.
    + unfold NumpyOrderIndicator.transfer, func_kwargs_of. rewrite Hloop. simpl.
      by destruct (call func kwargs), new_col.
Qed.

(** ** [sum_all_indicators] over a list of indicators *)

(** Storing under each name of a list a value that depends on the name. *)
Lemma foldl_insert_fun_lookup {V : Type} (g : string → V) (names : list string)
    (d : gmap string V) (name : string) :
  foldl (λ d n, <[n := g n]> d) d names !! name
  = if decide (name ∈ names) then Some (g name) else d !! name.
Proof.
  revert d. induction names as [|n names IH]; intros d.
  - by rewrite decide_False by apply not_elem_of_nil.
  - simpl. rewrite IH. destruct (decide (name ∈ names)) as [Hin|Hnotin].
    + rewrite decide_True; [done | by right].
    + destruct (decide (name = n)) as [->|Hne].
      * rewrite decide_True by (by left). apply lookup_insert_eq.
      * rewrite decide_False by (by intros [?|?]%elem_of_cons).
        by apply lookup_insert_ne.
Qed.

Lemma bind_Ok {A B : Type} (a : A) (k : A → result B) : (Ok a ≫= k) = k a.
Proof. reflexivity. Qed.

Lemma bind_Raise {A B : Type} (e : exn) (k : A → result B) : (Raise e ≫= k) = Raise e.
Proof. reflexivity. Qed.

(** The body of the outer loop of the reference backend, given how its inner
    loop ends. *)
Lemma pandas_outer_body (fill_value : option float)
    (indicators : list PandasOrderIndicator.t) (target : PandasOrderIndicator.t)
    (metric : string) (r : result PandasSingleMetric.t) :
  for_each
    (λ tmp_metric indicator,
       other ← getitem (PandasOrderIndicator.data indicator) metric;
       PandasSingleMetric.add tmp_metric other fill_value)
    (PandasSingleMetric.mk ∅) indicators = r →
  (tmp_metric ← PandasSingleMetric.__init__ (PandasSingleMetric.FromDict ∅);
   tmp_metric ←
     for_each
       (λ tmp_metric indicator,
          other ← getitem (PandasOrderIndicator.data indicator) metric;
          PandasSingleMetric.add tmp_metric other fill_value)
       tmp_metric indicators;
   PandasOrderIndicator.assign target metric
     (PandasSingleMetric.FromSeries (PandasSingleMetric.metric tmp_metric)))
  = match r with
    | Ok tmp_metric =>
        Ok (PandasOrderIndicator.mk
              (<[metric := PandasSingleMetric.mk (PandasSingleMetric.metric tmp_metric)]>
                 (PandasOrderIndicator.data target)))
    | Raise e => Raise e
    end.
Proof.
  intros <-.
  change (PandasSingleMetric.__init__ (PandasSingleMetric.FromDict ∅))
    with (Ok (PandasSingleMetric.mk ∅)).
  rewrite bind_Ok.
  by destruct (for_each _ (PandasSingleMetric.mk ∅) indicators).
Qed.

(** The inner loop of the reference backend: it runs to its end when every
    indicator holds the metric, and raises [KeyError] otherwise. *)
Lemma pandas_inner_loop (fill_value : option float) (name : string)
    (indicators : list PandasOrderIndicator.t) (tmp_metric : PandasSingleMetric.t) :
  (Forall (λ ind, is_Some (PandasOrderIndicator.data ind !! name)) indicators
   ∧ for_each
       (λ tmp_metric indicator,
          other ← getitem (PandasOrderIndicator.data indicator) name;
          PandasSingleMetric.add tmp_metric other fill_value)
       tmp_metric indicators
     = Ok (PandasSingleMetric.mk
             (pandas_accumulate fill_value name
                (PandasSingleMetric.metric tmp_metric) indicators)))
  ∨ (Exists (λ ind, PandasOrderIndicator.data ind !! name = None) indicators
     ∧ for_each
         (λ tmp_metric indicator,
            other ← getitem (PandasOrderIndicator.data indicator) name;
            PandasSingleMetric.add tmp_metric other fill_value)
         tmp_metric indicators
       = Raise (KeyError name)).
Proof.
  revert tmp_metric. induction indicators as [|ind indicators IH]; intros tmp_metric.
  - left. split; [constructor | by destruct tmp_metric].
  - destruct (PandasOrderIndicator.data ind !! name) as [other|] eqn:Hother.
    + destruct (IH (PandasSingleMetric.mk
                      (pd.add (PandasSingleMetric.metric tmp_metric)
                         (PandasSingleMetric.metric other) fill_value)))
        as [[Hall Hloop]|[Hex Hloop]].
      * left. split; [constructor; eauto|].
        simpl. rewrite (getitem_present _ _ _ Hother). simpl.
        unfold pandas_accumulate in *. simpl. by rewrite Hother.
      * right. split; [by right|].
        simpl. by rewrite (getitem_present _ _ _ Hother).
    + right. split; [by left|]. simpl. unfold getitem. by rewrite Hother.
Qed.

(** The outer loop of the reference backend, over the requested names. *)
Lemma pandas_outer_loop (fill_value : option float)
    (indicators : list PandasOrderIndicator.t) (names : list string)
    (target : PandasOrderIndicator.t) :
  let body order_indicator metric :=
    tmp_metric ← PandasSingleMetric.__init__ (PandasSingleMetric.FromDict ∅);
    tmp_metric ←
      for_each
        (λ tmp_metric indicator,
           other ← getitem (PandasOrderIndicator.data indicator) metric;
           PandasSingleMetric.add tmp_metric other fill_value)
        tmp_metric indicators;
    PandasOrderIndicator.assign order_indicator metric
      (PandasSingleMetric.FromSeries (PandasSingleMetric.metric tmp_metric)) in
  (Forall (λ n, Forall (λ ind, is_Some (PandasOrderIndicator.data ind !! n)) indicators)
          names
   ∧ for_each body target names
     = Ok (PandasOrderIndicator.mk
             (foldl (λ d n, <[n := PandasSingleMetric.mk
                                      (pandas_accumulate fill_value n ∅ indicators)]> d)
                    (PandasOrderIndicator.data target) names)))
  ∨ (∃ name ind, name ∈ names ∧ ind ∈ indicators
       ∧ PandasOrderIndicator.data ind !! name = None
       ∧ for_each body target names = Raise (KeyError name)).
Proof.
  intros body. revert target. induction names as [|n names IH]; intros target.
  - left. split; [constructor | by destruct target].
  - destruct (pandas_inner_loop fill_value n indicators (PandasSingleMetric.mk ∅))
      as [[Hall Hloop]|[Hex Hloop]].
    + assert (Hbody : body target n
                = Ok (PandasOrderIndicator.mk
                        (<[n := PandasSingleMetric.mk
                                  (pandas_accumulate fill_value n ∅ indicators)]>
                           (PandasOrderIndicator.data target)))).
      { exact (pandas_outer_body _ _ target n _ Hloop). }
      destruct (IH (PandasOrderIndicator.mk
                      (<[n := PandasSingleMetric.mk
                                (pandas_accumulate fill_value n ∅ indicators)]>
                         (PandasOrderIndicator.data target))))
        as [[Hrest Hnames]|(name & ind & Hname & Hind & Hnone & Hnames)].
      * left. split; [by constructor|]. simpl. by rewrite Hbody.
      * right. exists name, ind. split; [by right|]. do 2 (split; [done|]).
        simpl. by rewrite Hbody.
    + right. apply Exists_exists in Hex as (ind & Hind & Hnone).
      exists n, ind. split; [by left|]. do 2 (split; [done|]).
      assert (Hbody : body target n = Raise (KeyError n))
        by exact (pandas_outer_body _ _ target n _ Hloop).
      simpl. by rewrite Hbody.
Qed.

Lemma pandas_sum_unfold target indicators metrics fill_value :
  PandasOrderIndicator.sum_all_indicators target indicators metrics fill_value
  = for_each
      (λ order_indicator metric,
         tmp_metric ← PandasSingleMetric.__init__ (PandasSingleMetric.FromDict ∅);
         tmp_metric ←
           for_each
             (λ tmp_metric indicator,
                other ← getitem (PandasOrderIndicator.data indicator) metric;
                PandasSingleMetric.add tmp_metric other
                  (kwarg_value PandasOrderIndicator.fill_value_default fill_value))
             tmp_metric indicators;
         PandasOrderIndicator.assign order_indicator metric
           (PandasSingleMetric.FromSeries (PandasSingleMetric.metric tmp_metric)))
      target (metric_names metrics).
Proof. reflexivity. Qed.

(** What a successful call of the reference backend leaves in the target. *)
Lemma pandas_sum_result target indicators metrics fill_value target' :
  PandasOrderIndicator.sum_all_indicators target indicators metrics fill_value
  = Ok target' →
  Forall (λ n, Forall (λ ind, is_Some (PandasOrderIndicator.data ind !! n)) indicators)
         (metric_names metrics)
  ∧ ∀ name,
      PandasOrderIndicator.data target' !! name
      = if decide (name ∈ metric_names metrics)
        then Some (PandasSingleMetric.mk
                     (pandas_accumulate
                        (kwarg_value PandasOrderIndicator.fill_value_default fill_value)
                        name ∅ indicators))
        else PandasOrderIndicator.data target !! name.
Proof.
  rewrite pandas_sum_unfold. intros Hok.
  pose proof (pandas_outer_loop
                (kwarg_value PandasOrderIndicator.fill_value_default fill_value)
                indicators (metric_names metrics) target) as Hcases.
  cbv zeta in Hcases.
  destruct Hcases as [[Hall Hloop]|(name & ind & _ & _ & _ & Hloop)];
    rewrite Hloop in Hok.
  - injection Hok as <-. split; [done|].
    intros name. simpl.
    apply (foldl_insert_fun_lookup
             (λ n, PandasSingleMetric.mk
                     (pandas_accumulate
                        (kwarg_value PandasOrderIndicator.fill_value_default fill_value)
                        n ∅ indicators))).
  - discriminate Hok.
Qed.

(** A loop that ends without an exception has run its body on every
    element. *)
Lemma for_each_cons_Ok {S A : Type} (body : S → A → result S) (s : S) (x : A)
    (l : list A) (s' : S) :
  for_each body s (x :: l) = Ok s' →
  ∃ s1, body s x = Ok s1 ∧ for_each body s1 l = Ok s'.
Proof. simpl. destruct (body s x) as [s1|e]; [eauto | discriminate]. Qed.

(** The inner loop of the performance backend ends only if every indicator
    holds the metric. *)
Lemma numpy_inner_loop_Ok
    (Series_add : IndexData.Series string → IndexData.Series string →
                  option float → result (IndexData.Series string))
    (fill_value : option float) (name : string)
    (indicators : list NumpyOrderIndicator.t) (tmp_metric r : IndexData.Series string) :
  for_each
    (λ tmp_metric indicator,
       other ← getitem (NumpyOrderIndicator.data indicator) name;
       Series_add tmp_metric other fill_value)
    tmp_metric indicators = Ok r →
  Forall (λ ind, is_Some (NumpyOrderIndicator.data ind !! name)) indicators.
Proof.
  revert tmp_metric. induction indicators as [|ind indicators IH]; intros tmp_metric Hok.
  - constructor.
  - apply for_each_cons_Ok in Hok as (s1 & Hbody & Hrest).
    unfold getitem in Hbody.
    destruct (NumpyOrderIndicator.data ind !! name) as [other|] eqn:Hother;
      [|discriminate Hbody].
    constructor; eauto.
Qed.

(** What a successful call of the performance backend leaves in the target:
    the requested names are added to the names of the target, the other
    metrics are as they were, and every indicator holds every requested
    metric. *)
Lemma numpy_sum_result
    (Series_add : IndexData.Series string → IndexData.Series string →
                  option float → result (IndexData.Series string))
    (fill_value : option float) (indicators : list NumpyOrderIndicator.t)
    (names : list string) (target target' : NumpyOrderIndicator.t) :
  for_each
    (λ order_indicator metric,
       tmp_metric ←
         for_each
           (λ tmp_metric indicator,
              other ← getitem (NumpyOrderIndicator.data indicator) metric;
              Series_add tmp_metric other fill_value)
           IndexData.Series_empty indicators;
       Ok (NumpyOrderIndicator.mk
             (<[metric := tmp_metric]> (NumpyOrderIndicator.data order_indicator))))
    target names = Ok target' →
  Forall (λ n, Forall (λ ind, is_Some (NumpyOrderIndicator.data ind !! n)) indicators)
         names
  ∧ (∀ name, name ∈ names → is_Some (NumpyOrderIndicator.data target' !! name))
  ∧ (∀ name, name ∉ names →
       NumpyOrderIndicator.data target' !! name
       = NumpyOrderIndicator.data target !! name).
Proof.
  revert target. induction names as [|n names IH]; intros target Hok.
  - injection Hok as <-. split; [constructor|].
    split; [by intros name Hin%elem_of_nil | done].
  - apply for_each_cons_Ok in Hok as (s1 & Hbody & Hrest).
    destruct (for_each
                (λ tmp_metric indicator,
                   other ← getitem (NumpyOrderIndicator.data indicator) n;
                   Series_add tmp_metric other fill_value)
                IndexData.Series_empty indicators) as [tmp|e] eqn:Hinner;
      [|discriminate Hbody].
    injection Hbody as <-.
    destruct (IH _ Hrest) as (Hall & Hin & Hout).
    split; [constructor; [by eapply numpy_inner_loop_Ok | done]|]. split.
    + intros name Hname. destruct (decide (name ∈ names)) as [Hlater|Hlast].
      * by apply Hin.
      * apply elem_of_cons in Hname as [->|Hname]; [|done].
        rewrite Hout by done. simpl. rewrite lookup_insert_eq. eauto.
    + intros name [Hne Hnotin]%not_elem_of_cons.
      rewrite Hout by done. simpl. by rewrite lookup_insert_ne.
Qed.

(** X15: a call of [sum_all_indicators] that returns has written the requested
    names and nothing else: the target holds its former names and the
    requested ones, and every metric under a name that was not requested is
    what it was.  Both backends. *)
Theorem sum_all_indicators_frame
    (metrics : metrics_arg) (fill_value : kwarg (option float)) :
  (∀ (target : PandasOrderIndicator.t) indicators target',
      PandasOrderIndicator.sum_all_indicators target indicators metrics fill_value
      = Ok target' →
      dom (PandasOrderIndicator.data target')
      = dom (PandasOrderIndicator.data target) ∪ list_to_set (metric_names metrics)
      ∧ ∀ name, name ∉ metric_names metrics →
          PandasOrderIndicator.data target' !! name
          = PandasOrderIndicator.data target !! name)
  ∧ (∀ Series_add (target : NumpyOrderIndicator.t) indicators target',
      NumpyOrderIndicator.sum_all_indicators Series_add target indicators metrics
        fill_value = Ok target' →
      dom (NumpyOrderIndicator.data target')
      = dom (NumpyOrderIndicator.data target) ∪ list_to_set (metric_names metrics)
      ∧ ∀ name, name ∉ metric_names metrics →
          NumpyOrderIndicator.data target' !! name
          = NumpyOrderIndicator.data target !! name).
Proof.
  split.
  - intros target indicators target' Hok.
    apply pandas_sum_result in Hok as [_ Hlookup]. split.
    + apply set_eq. intros name.
      rewrite elem_of_union, !elem_of_dom, elem_of_list_to_set, Hlookup.
      case_decide; [split; eauto | split; [eauto | by intros [?|?]]].
    + intros name Hnot. rewrite Hlookup. by rewrite decide_False.
  - intros Series_add target indicators target' Hok.
    apply numpy_sum_result in Hok as (_ & Hin & Hout). split.
    + apply set_eq. intros name.
      rewrite elem_of_union, !elem_of_dom, elem_of_list_to_set.
      destruct (decide (name ∈ metric_names metrics)) as [Hname|Hname].
      * split; [by right | intros _; by apply Hin].
      * rewrite Hout by done. split; [by left | by intros [?|?]].
    + done.
Qed.

(** X16: the reference backend's [sum_all_indicators] returns exactly when
    every indicator holds every requested metric; otherwise it raises
    [KeyError] for a requested name that some indicator lacks.  The
    performance backend too returns only if every indicator holds every
    requested metric. *)
Theorem sum_all_indicators_needs_every_metric
    (metrics : metrics_arg) (fill_value : kwarg (option float)) :
  (∀ (target : PandasOrderIndicator.t) indicators,
      (∃ target',
          PandasOrderIndicator.sum_all_indicators target indicators metrics fill_value
          = Ok target')
      ↔ ∀ name ind, name ∈ metric_names metrics → ind ∈ indicators →
          is_Some (PandasOrderIndicator.data ind !! name))
  ∧ (∀ (target : PandasOrderIndicator.t) indicators e,
      PandasOrderIndicator.sum_all_indicators target indicators metrics fill_value
      = Raise e →
      ∃ name ind, name ∈ metric_names metrics ∧ ind ∈ indicators
        ∧ PandasOrderIndicator.data ind !! name = None ∧ e = KeyError name)
  ∧ (∀ Series_add (target : NumpyOrderIndicator.t) indicators target',
      NumpyOrderIndicator.sum_all_indicators Series_add target indicators metrics
        fill_value = Ok target' →
      ∀ name ind, name ∈ metric_names metrics → ind ∈ indicators →
        is_Some (NumpyOrderIndicator.data ind !! name)).
Proof.
  split; [|split].
  - intros target indicators. split.
    + intros [target' Hok]. apply pandas_sum_result in Hok as [Hall _].
      intros name ind Hname Hind.
      rewrite Forall_forall in Hall. specialize (Hall name Hname).
      rewrite Forall_forall in Hall. by apply Hall.
    + intros Hall. rewrite pandas_sum_unfold.
      pose proof (pandas_outer_loop
                    (kwarg_value PandasOrderIndicator.fill_value_default fill_value)
                    indicators (metric_names metrics) target) as Hcases.
      cbv zeta in Hcases.
      destruct Hcases as [[_ Hloop]|(name & ind & Hname & Hind & Hnone & _)];
        [eauto|].
      destruct (Hall name ind Hname Hind) as [m Hm]. congruence.
  - intros target indicators e. rewrite pandas_sum_unfold. intros Hraise.
    pose proof (pandas_outer_loop
                  (kwarg_value PandasOrderIndicator.fill_value_default fill_value)
                  indicators (metric_names metrics) target) as Hcases.
    cbv zeta in Hcases.
    destruct Hcases as [[_ Hloop]|(name & ind & Hname & Hind & Hnone & Hloop)];
      rewrite Hloop in Hraise; [discriminate Hraise|].
    injection Hraise as <-. by exists name, ind.
  - intros Series_add target indicators target' Hok.
    apply numpy_sum_result in Hok as (Hall & _ & _).
    intros name ind Hname Hind.
    rewrite Forall_forall in Hall. specialize (Hall name Hname).
    rewrite Forall_forall in Hall. by apply Hall.
Qed.

(** The labels of the accumulator: those it started with and those of the
    metrics added. *)
Lemma pandas_accumulate_labels (fill_value : option float) (name : string)
    (indicators : list PandasOrderIndicator.t) (acc : pd.Series) (l : string) :
  l ∈ dom (pandas_accumulate fill_value name acc indicators)
  ↔ l ∈ dom acc
    ∨ ∃ ind other, ind ∈ indicators
        ∧ PandasOrderIndicator.data ind !! name = Some other
        ∧ l ∈ dom (PandasSingleMetric.metric other).
Proof.
  revert acc. induction indicators as [|ind indicators IH]; intros acc.
  - simpl. split; [by left|]. intros [?|(ind & other & Hin & _)]; [done|].
    by apply elem_of_nil in Hin.
  - unfold pandas_accumulate in *. simpl. rewrite IH.
    destruct (PandasOrderIndicator.data ind !! name) as [other|] eqn:Hother.
    + rewrite pd_add_labels, elem_of_union. split.
      * intros [[Hacc|Hnew]|(ind' & other' & Hin & Hm & Hl)].
        -- by left.
        -- right. exists ind, other. split; [by left|done].
        -- right. exists ind', other'. split; [by right|done].
      * intros [Hacc|(ind' & other' & Hin & Hm & Hl)]; [by left; left|].
        apply elem_of_cons in Hin as [->|Hin].
        -- left. right. congruence.
        -- right. by exists ind', other'.
    + split.
      * intros [Hacc|(ind' & other' & Hin & Hm & Hl)]; [by left|].
        right. exists ind', other'. split; [by right|done].
      * intros [Hacc|(ind' & other' & Hin & Hm & Hl)]; [by left|].
        apply elem_of_cons in Hin as [->|Hin]; [congruence|].
        right. by exists ind', other'.
Qed.

(** Without a fill value an accumulator of NaNs stays one: adding to a NaN or
    to a missing entry gives NaN. *)
Lemma pandas_accumulate_no_fill (name : string)
    (indicators : list PandasOrderIndicator.t) (acc : pd.Series) :
  (∀ l v, acc !! l = Some v → PrimFloat.is_nan v = true) →
  ∀ l v, pandas_accumulate None name acc indicators !! l = Some v →
         PrimFloat.is_nan v = true.
Proof.
  revert acc. induction indicators as [|ind indicators IH]; intros acc Hacc; [done|].
  unfold pandas_accumulate in *. simpl. apply IH.
  destruct (PandasOrderIndicator.data ind !! name) as [other|]; [|done].
  intros l v. unfold pd.add. rewrite align_with_lookup. simpl.
  assert (Hleft : PrimFloat.is_nan (pd.aligned (acc !! l)) = true).
  { destruct (acc !! l) as [a|] eqn:Ha; [by apply (Hacc l)|done]. }
  destruct (acc !! l) as [a|], (PandasSingleMetric.metric other !! l) as [b|];
    intros [= <-]; by apply (arith_nan_l Add).
Qed.

(** X17: after a call of the reference backend's [sum_all_indicators] that
    returns, the metric under each requested name has exactly the labels that
    occur in that metric of some indicator. *)
Theorem pandas_sum_labels_are_union
    (target : PandasOrderIndicator.t) (indicators : list PandasOrderIndicator.t)
    (metrics : metrics_arg) (fill_value : kwarg (option float))
    (target' : PandasOrderIndicator.t) :
  PandasOrderIndicator.sum_all_indicators target indicators metrics fill_value
  = Ok target' →
  ∀ name, name ∈ metric_names metrics →
    ∃ m, PandasOrderIndicator.data target' !! name = Some m
       ∧ ∀ l, l ∈ dom (PandasSingleMetric.metric m)
              ↔ ∃ ind other, ind ∈ indicators
                  ∧ PandasOrderIndicator.data ind !! name = Some other
                  ∧ l ∈ dom (PandasSingleMetric.metric other).
Proof.
  intros Hok name Hname. apply pandas_sum_result in Hok as [_ Hlookup].
  eexists. split; [by rewrite Hlookup, decide_True|].
  intros l. simpl. rewrite pandas_accumulate_labels, dom_empty.
  split; [by intros [?%not_elem_of_empty|?] | by right].
Qed.

Lemma pandas_sum_labels_are_union_witness :
  ∃ m, PandasOrderIndicator.data
         (PandasOrderIndicator.mk {[ "x" := metric_s1 ]}) !! "x" = Some m
     ∧ ∀ l, l ∈ dom (PandasSingleMetric.metric m)
            ↔ ∃ ind other,
                ind ∈ [PandasOrderIndicator.mk {[ "x" := metric_s1 ]}]
                ∧ PandasOrderIndicator.data ind !! "x" = Some other
                ∧ l ∈ dom (PandasSingleMetric.metric other).
Proof.
  apply (pandas_sum_labels_are_union PandasOrderIndicator.__init__
           [PandasOrderIndicator.mk {[ "x" := metric_s1 ]}] (OneMetric "x")
           (Given (Some PrimFloat.zero))).
  - vm_compute. reflexivity.
  - by left.
Defined.

(** X18: when the reference backend's [sum_all_indicators] runs without a fill
    value (its default), every entry of every metric it stores is NaN: the
    accumulator starts empty, so each label first meets a missing side. *)
Theorem pandas_sum_without_fill_all_nan
    (target : PandasOrderIndicator.t) (indicators : list PandasOrderIndicator.t)
    (metrics : metrics_arg) (fill_value : kwarg (option float))
    (target' : PandasOrderIndicator.t) :
  kwarg_value PandasOrderIndicator.fill_value_default fill_value = None →
  PandasOrderIndicator.sum_all_indicators target indicators metrics fill_value
  = Ok target' →
  ∀ name m l v,
    name ∈ metric_names metrics →
    PandasOrderIndicator.data target' !! name = Some m →
    PandasSingleMetric.metric m !! l = Some v →
    PrimFloat.is_nan v = true.
Proof.
  intros Hfill Hok name m l v Hname Hm Hv.
  apply pandas_sum_result in Hok as [_ Hlookup].
  rewrite Hlookup, decide_True, Hfill in Hm by done. injection Hm as <-.
  simpl in Hv. by eapply pandas_accumulate_no_fill in Hv.
Qed.

Lemma pandas_sum_without_fill_all_nan_witness :
  PandasOrderIndicator.sum_all_indicators PandasOrderIndicator.__init__
    [PandasOrderIndicator.mk {[ "x" := metric_s1 ]}] (OneMetric "x") Omitted
  = Ok (PandasOrderIndicator.mk
          {[ "x" := PandasSingleMetric.mk {[ "s1" := PrimFloat.nan ]} ]})
  ∧ PrimFloat.is_nan PrimFloat.nan = true.
Proof.
  split; [vm_compute; reflexivity|].
  apply (pandas_sum_without_fill_all_nan PandasOrderIndicator.__init__
           [PandasOrderIndicator.mk {[ "x" := metric_s1 ]}] (OneMetric "x") Omitted
           (PandasOrderIndicator.mk
              {[ "x" := PandasSingleMetric.mk {[ "s1" := PrimFloat.nan ]} ]})
           eq_refl) with (name := "x")
         (m := PandasSingleMetric.mk {[ "s1" := PrimFloat.nan ]}) (l := "s1");
    [vm_compute; reflexivity | by left | reflexivity | reflexivity].
Defined.

(** ** The quote engines: more of [get_data] *)

(** A decidable statement about given data, settled by computing. *)
Ltac by_deciding :=
  match goal with
  | |- ?P => apply (bool_decide_eq_true_1 P); vm_compute; reflexivity
  end.

Lemma seq_getitem_present {A : Type} (a : list A) (i : nat) (x : A) :
  a !! i = Some x → seq_getitem a i = Ok x.
Proof. intros Hx. unfold seq_getitem. by rewrite Hx. Qed.

(** A filter that one element of the list passes, and no element at another
    position, keeps that element only. *)
Lemma filter_single {A : Type} (P : A → Prop) `{∀ x, Decision (P x)}
    (l : list A) (i : nat) (x : A) :
  l !! i = Some x → P x →
  (∀ j y, l !! j = Some y → P y → j = i) →
  filter P l = [x].
Proof.
  revert i. induction l as [|a l IH]; intros i Hi HP Honly; [done|].
  destruct i as [|i].
  - injection Hi as ->. rewrite filter_cons_True by done. f_equal.
    apply elem_of_nil_inv. intros y [HPy Hy]%list_elem_of_filter.
    apply list_elem_of_lookup in Hy as [j Hj].
    by specialize (Honly (S j) y Hj HPy).
  - rewrite filter_cons_False.
    + apply (IH i); [done..|]. intros j y Hj HPy.
      by specialize (Honly (S j) y Hj HPy) as [= ->].
    + intros HPa. by specialize (Honly 0 a eq_refl HPa).
Qed.

(** The slice of a label range that holds one label of the table: the row of
    that label. *)
Lemma rows_between_single (df : IndexData.DataFrame) (start_time end_time : Timestamp)
    (i : nat) (t : Timestamp) (row : list float) :
  NoDup (IndexData.index df) →
  IndexData.index df !! i = Some t →
  IndexData.values df !! i = Some row →
  (start_time ≤ t ≤ end_time)%Z →
  (∀ t', t' ∈ IndexData.index df → (start_time ≤ t' ≤ end_time)%Z → t' = t) →
  IndexData.rows_between df start_time end_time = [(t, row)].
Proof.
  intros Hnodup Hi Hrow Hrange Honly. unfold IndexData.rows_between.
  apply (filter_single _ _ i); [|done|].
  - apply lookup_zip_with_Some. by exists t, row.
  - intros j [t' row'] Hj Hin. simpl in Hin.
    apply lookup_zip_with_Some in Hj as (? & ? & [= <- <-] & Hj & _).
    assert (t' = t) as -> by (apply Honly; [by eapply list_elem_of_lookup_2|done]).
    by eapply NoDup_lookup.
Qed.

(** X19: the performance backend never hands out an empty slice: a series
    that [get_data] returns has at least one entry, and a 2-D array at least
    one row (an empty slice is answered by [None]). *)
Theorem get_data_never_empty
    (if_single_data : Timestamp → Timestamp → Timedelta → bool)
    (self : CN1min_NumpyQuote.t) (stock_id : string)
    (start_time end_time : Timestamp)
    (fields : option string) (method : option method_t) :
  (∀ s, CN1min_NumpyQuote.get_data if_single_data self stock_id start_time end_time
          fields method = Ok (Some (SeriesOverTime s)) →
        IndexData.len s ≠ 0)
  ∧ (∀ rows, CN1min_NumpyQuote.get_data if_single_data self stock_id start_time
               end_time fields method = Ok (Some (Array2D rows)) →
             rows ≠ []).
Proof.
  split; intros out Hout; unfold CN1min_NumpyQuote.get_data in Hout;
    destruct fields as [field|], method as [m|]; try discriminate Hout;
    (destruct (bool_decide (stock_id ∉ CN1min_NumpyQuote.get_all_stock self));
       [discriminate Hout|]);
    (destruct (getitem (CN1min_NumpyQuote.data self) stock_id) as [df|e];
       [|discriminate Hout]); simpl in Hout;
    (destruct (if_single_data start_time end_time CN1min_NumpyQuote.freq);
       [ destruct (IndexData.index_map df !! start_time) as [i|];
           [|discriminate Hout];
         try (destruct (getitem (IndexData.columns_map df) field) as [j|e];
                [|discriminate Hout]; simpl in Hout);
         (destruct (seq_getitem (IndexData.values df) i) as [row|e];
            [|discriminate Hout]); simpl in Hout;
         try (destruct (seq_getitem row j) as [x|e]; [|discriminate Hout]);
         discriminate Hout
       | ]).
  all: try (destruct (IndexData.loc_field df start_time end_time field)
              as [stock_data|e]; [|discriminate Hout]; simpl in Hout;
            destruct (IndexData.empty stock_data) eqn:Hempty;
              [discriminate Hout|]).
  all: try (destruct (IndexData.frame_empty
                        (IndexData.loc df start_time end_time)) eqn:Hempty;
              [discriminate Hout|]).
  - (* a field and a method: a number, a truth value or None *)
    destruct (bool_decide (IndexData.len stock_data = 1)).
    + destruct (seq_getitem (IndexData.s_values stock_data) 0); discriminate Hout.
    + unfold CN1min_NumpyQuote._agg_data in Hout.
      destruct m as [name| |id]; [| |discriminate Hout].
      * repeat (case_bool_decide; [try discriminate Hout|]); try discriminate Hout.
        destruct (last _); discriminate Hout.
      * case_bool_decide; [discriminate Hout|].
        destruct (seq_getitem _ 0); discriminate Hout.
  - (* a field, no method: the series *)
    injection Hout as <-. by apply bool_decide_eq_false in Hempty.
  - discriminate Hout.
  - destruct (bool_decide (IndexData.len stock_data = 1)).
    + destruct (seq_getitem (IndexData.s_values stock_data) 0); discriminate Hout.
    + unfold CN1min_NumpyQuote._agg_data in Hout.
      destruct m as [name| |id]; [| |discriminate Hout].
      * repeat (case_bool_decide; [try discriminate Hout|]); try discriminate Hout.
        destruct (last _); discriminate Hout.
      * case_bool_decide; [discriminate Hout|].
        destruct (seq_getitem _ 0); discriminate Hout.
  - discriminate Hout.
  - (* no field, no method: the 2-D array *)
    injection Hout as <-. apply bool_decide_eq_false in Hempty.
    intros Hnil. apply Hempty. exact (f_equal length Hnil).
Qed.

(** X20: on the multi-timestamp path, when the range holds exactly one label
    of the stock's table, [get_data] with a field and a method answers that
    row's cell of the field without looking at the method: any method, an
    unsupported name included, gives the same number. *)
Theorem get_data_single_row_ignores_method
    (if_single_data : Timestamp → Timestamp → Timedelta → bool)
    (self : CN1min_NumpyQuote.t) (stock_id : string) (df : IndexData.DataFrame)
    (start_time end_time : Timestamp) (i : nat) (t : Timestamp) (row : list float)
    (field : string) (j : nat) (x : float) :
  CN1min_NumpyQuote.data self !! stock_id = Some df →
  if_single_data start_time end_time CN1min_NumpyQuote.freq = false →
  NoDup (IndexData.index df) →
  IndexData.index df !! i = Some t →
  IndexData.values df !! i = Some row →
  (start_time ≤ t ≤ end_time)%Z →
  (∀ t', t' ∈ IndexData.index df → (start_time ≤ t' ≤ end_time)%Z → t' = t) →
  NoDup (IndexData.columns df) →
  IndexData.columns df !! j = Some field →
  row !! j = Some x →
  ∀ method,
    CN1min_NumpyQuote.get_data if_single_data self stock_id start_time end_time
      (Some field) (Some method) = Ok (Some (Number x)).
Proof.
  intros Hdf Hmulti Hnodup Hi Hrow Hrange Honly Hcols Hj Hx method.
  enter_known_stock Hdf. rewrite Hmulti.
  unfold IndexData.loc_field, IndexData.columns_map.
  rewrite (getitem_present _ _ j) by (by apply positions_present). simpl.
  rewrite (rows_between_single _ _ _ _ _ _ Hnodup Hi Hrow Hrange Honly). simpl.
  by rewrite (seq_getitem_present _ _ _ Hx).
Qed.

Lemma get_data_single_row_ignores_method_witness :
  CN1min_NumpyQuote.get_data if_single_data_spec scenario_quote "A"
    minute (minute + 1)%Z (Some "$close") (Some (MStr "median"))
  = Ok (Some (Number 11%float)).
Proof.
  apply (get_data_single_row_ignores_method if_single_data_spec scenario_quote "A"
           quote_A minute (minute + 1)%Z 1 minute [11%float] "$close" 0);
    try reflexivity.
  - by_deciding.
  - unfold minute. lia.
  - intros t' Ht' Hrange. unfold quote_A, minute in *. simpl in Ht'.
    repeat (apply elem_of_cons in Ht' as [->|Ht']; [lia|]).
    by apply elem_of_nil in Ht'.
  - by_deciding.
Defined.

(** X21: at a single time that is a label of the stock's table, without a
    field, the two paths give the same row: the fast path as it is, the
    multi-timestamp path as the only row of a 2-D array. *)
Theorem get_data_paths_agree_on_one_row
    (if_single_data : Timestamp → Timestamp → Timedelta → bool)
    (self : CN1min_NumpyQuote.t) (stock_id : string) (df : IndexData.DataFrame)
    (t : Timestamp) (i : nat) (row : list float) :
  CN1min_NumpyQuote.data self !! stock_id = Some df →
  NoDup (IndexData.index df) →
  IndexData.index df !! i = Some t →
  IndexData.values df !! i = Some row →
  CN1min_NumpyQuote.get_data if_single_data self stock_id t t None None
  = Ok (Some (if if_single_data t t CN1min_NumpyQuote.freq
              then Row row else Array2D [row])).
Proof.
  intros Hdf Hnodup Hi Hrow. enter_known_stock Hdf.
  destruct (if_single_data t t CN1min_NumpyQuote.freq).
  - unfold IndexData.index_map. rewrite (positions_present _ _ _ Hnodup Hi).
    unfold seq_getitem. by rewrite Hrow.
  - unfold IndexData.loc, IndexData.frame_empty. simpl.
    rewrite (rows_between_single df t t i t row) by (done || lia || (intros; lia)).
    done.
Qed.

Lemma get_data_paths_agree_on_one_row_witness :
  CN1min_NumpyQuote.get_data (λ _ _ _, false) scenario_quote "A" minute minute
    None None
  = Ok (Some (Array2D [[11%float]])).
Proof.
  apply (get_data_paths_agree_on_one_row (λ _ _ _, false) scenario_quote "A"
           quote_A minute 1 [11%float]); try reflexivity.
  by_deciding.
Defined.

(** X22: on the fast path the timestamp is looked up before the field: at a
    time that is a label of the table, a field that is no column of the table
    raises [KeyError] for the field, whatever the method (at a time that is no
    label the answer is [None], whatever the field). *)
Theorem get_data_fast_path_unknown_field
    (if_single_data : Timestamp → Timestamp → Timedelta → bool)
    (self : CN1min_NumpyQuote.t) (stock_id : string) (df : IndexData.DataFrame)
    (start_time end_time : Timestamp) (i : nat) (field : string)
    (method : option method_t) :
  CN1min_NumpyQuote.data self !! stock_id = Some df →
  if_single_data start_time end_time CN1min_NumpyQuote.freq = true →
  NoDup (IndexData.index df) →
  IndexData.index df !! i = Some start_time →
  field ∉ IndexData.columns df →
  CN1min_NumpyQuote.get_data if_single_data self stock_id start_time end_time
    (Some field) method = Raise (KeyError field).
Proof.
  intros Hdf Hsingle Hnodup Hi Hfield. enter_known_stock Hdf. rewrite Hsingle.
  unfold IndexData.index_map. rewrite (positions_present _ _ _ Hnodup Hi).
  unfold IndexData.columns_map, getitem.
  rewrite (positions_absent _ _ Hfield). by destruct method.
Qed.

Lemma get_data_fast_path_unknown_field_witness :
  CN1min_NumpyQuote.get_data if_single_data_spec scenario_quote "A" minute minute
    (Some "$open") None = Raise (KeyError "$open").
Proof.
  apply (get_data_fast_path_unknown_field if_single_data_spec scenario_quote "A"
           quote_A minute minute 1); try reflexivity.
  - by_deciding.
  - by_deciding.
Defined.

(** X23: on the multi-timestamp path, when the slice of the field has two
    rows or more, [get_data] with a method is [_agg_data] on the values of
    the slice; so a method name other than sum, mean, last, all and any
    raises a [ValueError] that names it. *)
Theorem get_data_aggregates_longer_slices
    (if_single_data : Timestamp → Timestamp → Timedelta → bool)
    (self : CN1min_NumpyQuote.t) (stock_id : string) (df : IndexData.DataFrame)
    (start_time end_time : Timestamp) (field : string)
    (stock_data : IndexData.Series Timestamp) :
  CN1min_NumpyQuote.data self !! stock_id = Some df →
  if_single_data start_time end_time CN1min_NumpyQuote.freq = false →
  IndexData.loc_field df start_time end_time field = Ok stock_data →
  (2 ≤ IndexData.len stock_data)%nat →
  (∀ method,
     CN1min_NumpyQuote.get_data if_single_data self stock_id start_time end_time
       (Some field) (Some method)
     = CN1min_NumpyQuote._agg_data (IndexData.s_values stock_data) method)
  ∧ (∀ name, name ∉ ["sum"; "mean"; "last"; "all"; "any"] →
       CN1min_NumpyQuote.get_data if_single_data self stock_id start_time end_time
         (Some field) (Some (MStr name))
       = Raise (ValueError (name +:+ " is not supported"))).
Proof.
  intros Hdf Hmulti Hloc Hlen.
  assert (Hagg : ∀ method,
     CN1min_NumpyQuote.get_data if_single_data self stock_id start_time end_time
       (Some field) (Some method)
     = CN1min_NumpyQuote._agg_data (IndexData.s_values stock_data) method).
  { intros method. enter_known_stock Hdf. rewrite Hmulti, Hloc. simpl.
    unfold IndexData.empty, IndexData.len in *.
    repeat case_bool_decide; (done || lia). }
  split; [done|]. intros name Hname. rewrite Hagg.
  unfold CN1min_NumpyQuote._agg_data.
  repeat (rewrite bool_decide_eq_false_2; [|intros ->; apply Hname; set_solver]).
  done.
Qed.

Lemma get_data_aggregates_longer_slices_witness :
  (∀ method,
     CN1min_NumpyQuote.get_data if_single_data_spec scenario_quote "A"
       0%Z (2 * minute)%Z (Some "$close") (Some method)
     = CN1min_NumpyQuote._agg_data [10%float; 11%float; 12%float] method)
  ∧ (∀ name, name ∉ ["sum"; "mean"; "last"; "all"; "any"] →
       CN1min_NumpyQuote.get_data if_single_data_spec scenario_quote "A"
         0%Z (2 * minute)%Z (Some "$close") (Some (MStr name))
       = Raise (ValueError (name +:+ " is not supported"))).
Proof.
  apply (get_data_aggregates_longer_slices if_single_data_spec scenario_quote "A"
           quote_A 0%Z (2 * minute)%Z "$close"
           (IndexData.mkSeries [0; minute; 2 * minute]%Z
              [10%float; 11%float; 12%float]));
    [reflexivity | reflexivity | vm_compute; reflexivity
    | unfold IndexData.len; simpl; lia].
Defined.

(** X24: in the reference backend, a field that is no column of a known
    stock's frame raises [KeyError] for the field, before the resampling is
    reached. *)
Theorem pandas_get_data_unknown_field
    (resam_ts_data : PandasQuote.ts_feature → Timestamp → Timestamp →
                     option method_t → result PandasQuote.resampled)
    (self : PandasQuote.t) (stock_id : string) (df : pd.DataFrame)
    (start_time end_time : Timestamp) (field : string) (method : option method_t) :
  PandasQuote.data self !! stock_id = Some df →
  field ∉ pd.columns df →
  PandasQuote.get_data resam_ts_data self stock_id start_time end_time
    (Some field) method = Raise (KeyError field).
Proof.
  intros Hdf Hfield.
  assert (Hcol : pd.column df field = Raise (KeyError field)).
  { unfold pd.column.
    assert (Hfind : list_find (λ c, c = field) (pd.columns df) = None).
    { apply list_find_None, Forall_forall. by intros c Hc ->. }
    by rewrite Hfind. }
  unfold PandasQuote.get_data.
  rewrite (getitem_present _ _ _ Hdf), bind_Ok, Hcol. by destruct method.
Qed.

Lemma pandas_get_data_unknown_field_witness :
  PandasQuote.get_data (λ _ _ _ _, Ok PandasQuote.RNone)
    (PandasQuote.mk {[ "A" := pd.mkDataFrame [0%Z] ["$close"] [[10%float]] ]})
    "A" 0%Z 0%Z (Some "$open") None
  = Raise (KeyError "$open").
Proof.
  apply (pandas_get_data_unknown_field _ _ "A"
           (pd.mkDataFrame [0%Z] ["$close"] [[10%float]]));
    [reflexivity | by_deciding].
Defined.

(** ** Witnesses and the fallbacks of the reference backend *)

(** X1: the reference backend's [get_metric_series] never raises: for a name
    that was never assigned it returns an empty series (of length zero), for
    an assigned one the series stored under it. *)
Theorem pandas_get_metric_series_falls_back
    (self : PandasOrderIndicator.t) (name : string) :
  ∃ s, PandasOrderIndicator.get_metric_series self name = Ok s
     ∧ (PandasOrderIndicator.data self !! name = None → s = ∅ ∧ pd.len s = 0)
     ∧ (∀ m, PandasOrderIndicator.data self !! name = Some m →
             s = PandasSingleMetric.metric m).
Proof.
  eexists. split; [apply pandas_get_metric_series|].
  split; [by intros -> | by intros m ->].
Qed.

Lemma numpy_get_data_unknown_stock_witness :
  CN1min_NumpyQuote.get_data if_single_data_spec scenario_quote "B" 0%Z 0%Z
    (Some "$close") (Some (MStr "mean")) = Ok None.
Proof.
  apply numpy_get_data_unknown_stock; [reflexivity | discriminate].
Defined.

Lemma transfer_missing_parameter_witness :
  PandasOrderIndicator.transfer indicator_x func_x_plus_y (Some "z")
  = Raise (KeyError "y").
Proof.
  apply (proj1 (transfer_missing_parameter ["x"] "y" [] (Some "z")));
    [reflexivity | | reflexivity].
  intros p ->%list_elem_of_singleton. by eexists.
Defined.

Lemma transfer_passes_named_metrics_witness :
  ∃ kwargs,
    (∀ k, kwargs !! k = if decide (k ∈ parameters func_x_plus_y)
                        then PandasOrderIndicator.data indicator_x_y !! k else None)
    ∧ PandasOrderIndicator.transfer indicator_x_y func_x_plus_y (Some "z")
      = match call func_x_plus_y kwargs with
        | Raise e => Raise e
        | Ok tmp_metric =>
            Ok (PandasOrderIndicator.mk
                  (<["z" := tmp_metric]> (PandasOrderIndicator.data indicator_x_y)),
                None)
        end.
Proof.
  apply (proj1 (transfer_passes_named_metrics (Some "z")) indicator_x_y func_x_plus_y).
  intros p Hp. simpl in Hp.
  repeat (apply elem_of_cons in Hp as [->|Hp]; [by eexists|]).
  by apply elem_of_nil in Hp.
Defined.

Lemma sum_all_indicators_frame_witness :
  dom (PandasOrderIndicator.data
         (PandasOrderIndicator.mk {[ "x" := metric_s1; "y" := metric_s1nan_s2 ]}))
  = dom (PandasOrderIndicator.data
           (PandasOrderIndicator.mk {[ "y" := metric_s1nan_s2 ]}))
    ∪ list_to_set (metric_names (OneMetric "x"))
  ∧ ∀ name, name ∉ metric_names (OneMetric "x") →
      PandasOrderIndicator.data
        (PandasOrderIndicator.mk {[ "x" := metric_s1; "y" := metric_s1nan_s2 ]}) !! name
      = PandasOrderIndicator.data
          (PandasOrderIndicator.mk {[ "y" := metric_s1nan_s2 ]}) !! name.
Proof.
  apply (proj1 (sum_all_indicators_frame (OneMetric "x") (Given (Some PrimFloat.zero)))
           (PandasOrderIndicator.mk {[ "y" := metric_s1nan_s2 ]}) [indicator_x]).
  vm_compute. reflexivity.
Defined.

(** X25: in the performance backend, [assign] stores the series built from the
    mapping under the name: [get_index_data] then returns that series, the
    metrics under the other names are what they were, and
    [get_metric_series] gives the mapping back (with the conversions between
    a mapping and an [IndexData.Series] as they are modelled here). *)
Theorem numpy_assign_then_read
    (self : NumpyOrderIndicator.t) (col : string) (metric : gmap string float) :
  NumpyOrderIndicator.get_index_data (NumpyOrderIndicator.assign self col metric) col
  = Ok (IndexData.Series_of_dict metric)
  ∧ (∀ other, other ≠ col →
       NumpyOrderIndicator.get_index_data
         (NumpyOrderIndicator.assign self col metric) other
       = NumpyOrderIndicator.get_index_data self other)
  ∧ NumpyOrderIndicator.get_metric_series
      (NumpyOrderIndicator.assign self col metric) col
    = Ok metric.
Proof.
  split; [|split].
  - rewrite numpy_get_index_data. simpl. by rewrite lookup_insert_eq.
  - intros other Hne. rewrite !numpy_get_index_data. simpl.
    by rewrite lookup_insert_ne.
  - unfold NumpyOrderIndicator.get_metric_series, NumpyOrderIndicator.assign. simpl.
    rewrite (getitem_present _ _ (IndexData.Series_of_dict metric))
      by apply lookup_insert_eq.
    simpl. f_equal. unfold IndexData.to_pd_series, IndexData.Series_of_dict. simpl.
    rewrite zip_fst_snd. apply list_to_map_to_list.
Qed.

(** ** The default fill value of [sum_all_indicators] *)

(** Two loops whose bodies agree everywhere end alike. *)
Lemma for_each_ext {S A : Type} (body1 body2 : S → A → result S) (s : S) (l : list A) :
  (∀ s x, body1 s x = body2 s x) →
  for_each body1 s l = for_each body2 s l.
Proof.
  intros Hext. revert s. induction l as [|x l IH]; intros s; [done|].
  simpl. rewrite Hext. destruct (body2 s x); [apply IH | done].
Qed.

(** C6: the default of [fill_value] is [None] in the reference backend and [0]
    in the performance backend, and a call that leaves [fill_value] out sums
    with the backend's own default.  In the reference backend such a call is
    the call with [None]; what it stores under a requested name is the
    accumulation of the indicators' metrics by [add] without a fill value, so
    every entry is left missing (NaN), and for one indicator it is the empty
    metric plus that indicator's metric, nothing filled.  In the performance
    backend such a call is the call with [0]; for one indicator it stores
    what [IndexData.Series.add] gives on the empty series and the indicator's
    metric with fill value [0], and in general it depends on
    [IndexData.Series.add] only through its results at fill value [0]. *)
Theorem sum_all_indicators_default_fill_value :
  (PandasOrderIndicator.fill_value_default = None
   ∧ NumpyOrderIndicator.fill_value_default = Some PrimFloat.zero
   ∧ PandasOrderIndicator.fill_value_default ≠ NumpyOrderIndicator.fill_value_default)
  ∧ (∀ target indicators metrics,
       PandasOrderIndicator.sum_all_indicators target indicators metrics Omitted
       = PandasOrderIndicator.sum_all_indicators target indicators metrics (Given None))
  ∧ (∀ Series_add target indicators metrics,
       NumpyOrderIndicator.sum_all_indicators Series_add target indicators metrics Omitted
       = NumpyOrderIndicator.sum_all_indicators Series_add target indicators metrics
           (Given (Some PrimFloat.zero)))
  ∧ (∀ target indicators metrics target',
       PandasOrderIndicator.sum_all_indicators target indicators metrics Omitted
       = Ok target' →
       ∀ name, name ∈ metric_names metrics →
         ∃ m, PandasOrderIndicator.data target' !! name = Some m
            ∧ PandasSingleMetric.metric m = pandas_accumulate None name ∅ indicators
            ∧ ∀ l v, PandasSingleMetric.metric m !! l = Some v →
                     PrimFloat.is_nan v = true)
  ∧ (∀ target ind name other,
       PandasOrderIndicator.data ind !! name = Some other →
       PandasOrderIndicator.sum_all_indicators target [ind] (OneMetric name) Omitted
       = Ok (PandasOrderIndicator.mk
               (<[name := PandasSingleMetric.mk
                            (pd.add ∅ (PandasSingleMetric.metric other) None)]>
                  (PandasOrderIndicator.data target))))
  ∧ (∀ Series_add target ind name other,
       NumpyOrderIndicator.data ind !! name = Some other →
       NumpyOrderIndicator.sum_all_indicators Series_add target [ind] (OneMetric name)
         Omitted
       = (tmp_metric ← Series_add IndexData.Series_empty other (Some PrimFloat.zero);
          Ok (NumpyOrderIndicator.mk
                (<[name := tmp_metric]> (NumpyOrderIndicator.data target)))))
  ∧ (∀ Series_add1 Series_add2 target indicators metrics,
       (∀ a b, Series_add1 a b (Some PrimFloat.zero)
               = Series_add2 a b (Some PrimFloat.zero)) →
       NumpyOrderIndicator.sum_all_indicators Series_add1 target indicators metrics
         Omitted
       = NumpyOrderIndicator.sum_all_indicators Series_add2 target indicators metrics
           Omitted).
Proof.
  split; [repeat split; discriminate|]. do 2 (split; [reflexivity|]).
  split; [|split; [|split]].
  - intros target indicators metrics target' Hok name Hname.
    apply pandas_sum_result in Hok as [_ Hlookup].
    eexists. split; [by rewrite Hlookup, decide_True|].
    split; [reflexivity|]. intros l v Hv.
    by eapply pandas_accumulate_no_fill in Hv.
  - intros target ind name other Hother.
    unfold PandasOrderIndicator.sum_all_indicators. simpl.
    by rewrite (getitem_present _ _ _ Hother).
  - intros Series_add target ind name other Hother.
    unfold NumpyOrderIndicator.sum_all_indicators. simpl.
    rewrite (getitem_present _ _ _ Hother). simpl.
    change NumpyOrderIndicator.fill_value_default with (Some PrimFloat.zero).
    by destruct (Series_add IndexData.Series_empty other (Some PrimFloat.zero)).
  - intros Series_add1 Series_add2 target indicators metrics Hsame.
    unfold NumpyOrderIndicator.sum_all_indicators. simpl.
    change NumpyOrderIndicator.fill_value_default with (Some PrimFloat.zero).
    apply for_each_ext. intros order_indicator metric.
    rewrite (for_each_ext
               (λ tmp_metric indicator,
                  other ← getitem (NumpyOrderIndicator.data indicator) metric;
                  Series_add1 tmp_metric other (Some PrimFloat.zero))
               (λ tmp_metric indicator,
                  other ← getitem (NumpyOrderIndicator.data indicator) metric;
                  Series_add2 tmp_metric other (Some PrimFloat.zero))); [done|].
    intros tmp_metric indicator.
    destruct (getitem (NumpyOrderIndicator.data indicator) metric); [apply Hsame|done].
Qed.
